(** * OAuth 2.0 server core: token and authorize pipelines

    A shallow embedding of the TypeScript handlers and grant types
    ([TokenHandler], [AuthorizeHandler], the four grant types and
    [TokenModel]) and the properties of the specification that concern
    them.

    Conventions of the embedding:
    - JavaScript values are the type [JsVal]; objects are finite maps of
      their own properties, the prototype chain is not represented;
    - asynchronous code is run to completion, one model call at a time:
      a call to the persistence model is an atomic step on the model's
      store, and every call is logged with its arguments and outcome;
    - [throw] is the [Throw] outcome of the monad [M]; a [try]/[catch]
      block is [try_catch];
    - the clock and the random token source are streams owned by the
      world the program runs in. *)

From Stdlib Require Import ZArith Lia Ascii String.
From stdpp Require Import base option strings list gmap.

Local Open Scope Z_scope.
Local Open Scope string_scope.

(** ** JavaScript values *)

Module Js.

(** A number is an integer (seconds, milliseconds, status codes) or NaN;
    a [Date] holds its time value in milliseconds, [None] being the
    invalid date. *)
#[warnings="-register-all"] Inductive JsVal : Type :=
| JUndefined
| JNull
| JBool (b : bool)
| JNum (n : Z)
| JNaN
| JStr (s : string)
| JDate (t : option Z)
| JArr (items : list JsVal)
| JObj (props : gmap string JsVal).

(** [ToBoolean]. *)
Definition truthy (v : JsVal) : bool :=
  match v with
  | JUndefined | JNull | JNaN => false
  | JBool b => b
  | JNum n => negb (Z.eqb n 0)
  | JStr s => negb (String.eqb s EmptyString)
  | JDate _ | JArr _ | JObj _ => true
  end.

Definition falsy (v : JsVal) : bool := negb (truthy v).

(** [a || b] *)
Definition or_else (a b : JsVal) : JsVal := if truthy a then a else b.

(** [a === b] on primitives.  References are not tracked: two objects,
    arrays or dates are taken to be distinct references. *)
Definition strict_eq (a b : JsVal) : bool :=
  match a, b with
  | JUndefined, JUndefined => true
  | JNull, JNull => true
  | JBool x, JBool y => Bool.eqb x y
  | JNum x, JNum y => Z.eqb x y
  | JStr x, JStr y => String.eqb x y
  | _, _ => false
  end.

(** [SameValueZero], the comparison of [Array.prototype.includes]. *)
Definition same_value_zero (a b : JsVal) : bool :=
  match a, b with
  | JNaN, JNaN => true
  | _, _ => strict_eq a b
  end.

(** [v instanceof Date] and [v instanceof Array]. *)
Definition is_date (v : JsVal) : bool :=
  match v with JDate _ => true | _ => false end.

Definition is_array (v : JsVal) : bool :=
  match v with JArr _ => true | _ => false end.

(** [o.k] for a value that is neither [null] nor [undefined]. *)
Definition get_prop (o : JsVal) (k : string) : JsVal :=
  match o with
  | JObj props => default JUndefined (props !! k)
  | _ => JUndefined
  end.

(** [o.hasOwnProperty(k)] *)
Definition has_own (o : JsVal) (k : string) : bool :=
  match o with
  | JObj props => bool_decide (is_Some (props !! k))
  | _ => false
  end.

(** [typeof v !== 'undefined'] *)
Definition is_defined (v : JsVal) : bool :=
  match v with JUndefined => false | _ => true end.

(** [Object.keys(o).length > 0] *)
Definition has_keys (o : JsVal) : bool :=
  match o with
  | JObj props => negb (Nat.eqb (size props) 0)
  | JArr items => negb (Nat.eqb (length items) 0)
  | JStr s => negb (String.eqb s EmptyString)
  | _ => false
  end.

(** [arr.includes(x)] *)
Definition includes (arr x : JsVal) : bool :=
  match arr with
  | JArr items => existsb (same_value_zero x) items
  | _ => false
  end.

(** A request field is a string or absent. *)
Definition field (f : option string) : JsVal :=
  match f with
  | Some s => JStr s
  | None => JUndefined
  end.

(** [!!f] for a request field. *)
Definition present (f : option string) : bool := truthy (field f).

(** [a || b] for request fields. *)
Definition field_or (a b : option string) : option string :=
  if present a then a else b.

(** [a < b] on two dates: false when either is invalid. *)
Definition date_lt (a b : option Z) : bool :=
  match a, b with
  | Some x, Some y => Z.ltb x y
  | _, _ => false
  end.

End Js.

Export Js.

(** ** The error taxonomy *)

Module Exceptions.

(** One constructor per exception class; [e instanceof InvalidClientException]
    is a test on the kind. *)
Inductive ErrorKind : Type :=
| access_denied
| insufficient_scope
| invalid_argument
| invalid_client
| invalid_grant
| invalid_request
| invalid_scope
| invalid_token
| server_error
| unauthorized_client
| unauthorized_request
| unsupported_grant_type
| unsupported_response_type.

#[global] Instance ErrorKind_eq_dec : EqDecision ErrorKind.
Proof. solve_decision. Defined.

(** The [name] each class passes to its base class; for the classes that
    are missing from the sources, the machine name of the error table. *)
Definition kind_name (k : ErrorKind) : string :=
  match k with
  | access_denied => "access_denied"
  | insufficient_scope => "insufficient_scope"
  | invalid_argument => "invalid_argument"
  | invalid_client => "invalid_client"
  | invalid_grant => "invalid_grant"
  | invalid_request => "invalid_request"
  | invalid_scope => "invalid_scope"
  | invalid_token => "invalid_token"
  | server_error => "server_error"
  | unauthorized_client => "unauthorized_client"
  | unauthorized_request => "unauthorized_request"
  | unsupported_grant_type => "unsupported_grant_type"
  | unsupported_response_type => "unsupported_response_type"
  end.

(** Modelled from the spec: the [code] each class passes to its base class.
    The classes [OAuthException], [InvalidClientException],
    [InvalidGrantException], [InvalidRequestException],
    [InvalidTokenException] and [UnsupportedResponseTypeException] are
    missing from the sources and take their code from the status column of
    the error table; the codes of the other classes are those of their
    constructors. *)
Definition default_code (k : ErrorKind) : Z :=
  match k with
  | insufficient_scope => 403
  | invalid_argument => 500
  | invalid_token | unauthorized_request => 401
  | server_error => 503
  | _ => 400
  end.

(** Modelled from the spec: the base class [OAuthException], an error value
    carrying its kind, its HTTP code and its message. *)
Record OAuthException : Type := mkException {
  exc_kind : ErrorKind;
  exc_code : Z;
  exc_message : string
}.

Definition exc_name (e : OAuthException) : string := kind_name (exc_kind e).

(** What a [throw] carries: a value of the taxonomy, or any other throwable
    (a [TypeError], an error of the model), of which the message is kept. *)
Inductive Thrown : Type :=
| OAuth (e : OAuthException)
| Foreign (msg : string).

Definition thrown_message (t : Thrown) : string :=
  match t with
  | OAuth e => exc_message e
  | Foreign msg => msg
  end.

(** [new K(message, properties)], with
    [super(message, { code, name, ...properties })]: a [code] among the
    properties replaces the default of the class. *)
Definition exception (k : ErrorKind) (message : string) (code : option Z)
  : OAuthException :=
  mkException k (default default_code (const <$> code) k) message.

Definition AccessDeniedException (m : string) := exception access_denied m None.
Definition InvalidArgumentException (m : string) := exception invalid_argument m None.
Definition InvalidClientException (m : string) := exception invalid_client m None.
Definition InvalidGrantException (m : string) := exception invalid_grant m None.
Definition InvalidRequestException (m : string) := exception invalid_request m None.
Definition InvalidScopeException (m : string) := exception invalid_scope m None.
Definition ServerException (m : string) := exception server_error m None.
Definition UnauthorizedClientException (m : string) := exception unauthorized_client m None.
Definition UnsupportedGrantTypeException (m : string) := exception unsupported_grant_type m None.
Definition UnsupportedResponseTypeException (m : string) :=
  exception unsupported_response_type m None.

(** [if (!(e instanceof OAuthException)) e = new ServerException(e)] *)
Definition as_oauth (t : Thrown) : OAuthException :=
  match t with
  | OAuth e => e
  | Foreign msg => ServerException msg
  end.

Inductive Outcome (A : Type) : Type :=
| Ok (a : A)
| Throw (t : Thrown).

Arguments Ok {A} a.
Arguments Throw {A} t.

End Exceptions.

Export Exceptions.

(** ** Requests and responses *)

Module Http.

Definition lower_ascii (c : ascii) : ascii :=
  let n := nat_of_ascii c in
  if (Nat.leb 65 n && Nat.leb n 90)%bool then ascii_of_nat (n + 32) else c.

Fixpoint lower (s : string) : string :=
  match s with
  | EmptyString => EmptyString
  | String c rest => String (lower_ascii c) (lower rest)
  end.

(** Modelled from the spec: the [Request] value object, a view of an HTTP
    message with its method, headers (field names in lower case), decoded
    form body and query string. *)
Record Request : Type := mkRequest {
  method : string;
  headers : gmap string string;
  body : gmap string string;
  query : gmap string string
}.

(** [request.get(field)] *)
Definition req_get (r : Request) (name : string) : option string :=
  headers r !! lower name.

(** Modelled from the spec: the [Response] value object, with its status,
    body, headers and redirect. *)
Record Response : Type := mkResponse {
  status : Z;
  resp_body : JsVal;
  resp_headers : gmap string string
}.

(** [response.set(field, value)] *)
Definition resp_set (name value : string) (r : Response) : Response :=
  mkResponse (status r) (resp_body r) (<[lower name := value]> (resp_headers r)).

(** [response.redirect(url)]: the location and HTTP 302. *)
Definition resp_redirect (url : string) (r : Response) : Response :=
  mkResponse 302 (resp_body r) (<[lower "Location" := url]> (resp_headers r)).

Definition set_body (b : JsVal) (r : Response) : Response :=
  mkResponse (status r) b (resp_headers r).

Definition set_status (c : Z) (r : Response) : Response :=
  mkResponse c (resp_body r) (resp_headers r).

(** What [url.parse(u, true)] gives and [url.format] takes: the parsed
    query, the raw [search] text, and the rest of the address. *)
Record Url : Type := mkUrl {
  url_base : string;
  url_search : option string;
  url_query : gmap string JsVal
}.

End Http.

Export Http.

(** ** What the library takes from its environment

    The validators of [IsValidator], the [basic-auth], [type-is] and [url]
    packages, the system clock and the random token source. *)

Record Externals : Type := mkExternals {
  is_vschar : JsVal → bool;
  is_nchar : JsVal → bool;
  is_nqschar : JsVal → bool;
  is_uchar : JsVal → bool;
  is_uri : JsVal → bool;
  (** the credentials in the text of an [Authorization] header *)
  basic_auth : string → option (string * string);
  (** [request.is(type)] *)
  type_is : Request → string → bool;
  url_parse : string → Url;
  url_format : Url → string;
  (** the time in milliseconds at the n-th reading of the clock *)
  clock : nat → Z;
  (** the n-th token of [GenerateRandomToken] *)
  random_token : nat → string
}.

(** ** The persistence model

    The model is an object of the host application: each method it
    implements is a step on the model's own store that returns a value or
    throws.  A method the model does not implement is [None]. *)

Module Model.

Inductive Method : Type :=
| getClient
| getAccessToken
| verifyScope
| getAuthorizationCode
| revokeAuthorizationCode
| saveToken
| saveAuthorizationCode
| getUser
| getUserFromClient
| getRefreshToken
| revokeToken
| generateAccessToken
| generateRefreshToken
| generateAuthorizationCode
| validateScope.

#[global] Instance Method_eq_dec : EqDecision Method.
Proof. solve_decision. Defined.

Definition t (S : Type) : Type :=
  Method → option (list JsVal → S → Outcome JsVal * S).

(** [!model.method] *)
Definition lacks {S : Type} (model : t S) (m : Method) : bool :=
  match model m with Some _ => false | None => true end.

End Model.

(** One entry of the log of model calls. *)
Record Call : Type := mkCall {
  call_method : Model.Method;
  call_args : list JsVal;
  call_result : Outcome JsVal
}.

(** ** The world a handler runs in, and the monad of its effects *)

Section Runtime.

Context {S : Type}.

(** The model's store, the response object being filled in, the log of
    model calls so far, and how many times the clock and the random source
    have been read. *)
Record World : Type := mkWorld {
  store : S;
  response : Response;
  calls : list Call;
  ticks : nat;
  draws : nat
}.

Definition M (A : Type) : Type := World → Outcome A * World.

Definition ret {A : Type} (a : A) : M A := λ w, (Ok a, w).

Definition throw {A : Type} (t : Thrown) : M A := λ w, (Throw t, w).

Definition raise {A : Type} (e : OAuthException) : M A := throw (OAuth e).

Definition bind {A B : Type} (m : M A) (k : A → M B) : M B :=
  λ w, match m w with
       | (Ok a, w') => k a w'
       | (Throw t, w') => (Throw t, w')
       end.

(** [try { m } catch (e) { h(e) }] *)
Definition try_catch {A : Type} (m : M A) (h : Thrown → M A) : M A :=
  λ w, match m w with
       | (Ok a, w') => (Ok a, w')
       | (Throw t, w') => h t w'
       end.

(** Calling an async function gives a promise: what the call does is done,
    and how it ended is kept for the [await]. *)
Definition promise {A : Type} (m : M A) : M (Outcome A) :=
  λ w, let '(r, w') := m w in (Ok r, w').

Definition await {A : Type} (r : Outcome A) : M A := λ w, (r, w).

(** [if (c) throw e] *)
Definition throw_if (c : bool) (e : OAuthException) : M unit :=
  if c then raise e else ret tt.

(** [new Date()] as a time value *)
Definition now (E : Externals) : M Z :=
  λ w, (Ok (clock E (ticks w)),
        mkWorld (store w) (response w) (calls w) (Datatypes.S (ticks w)) (draws w)).

(** [tokenUtil.GenerateRandomToken()] *)
Definition GenerateRandomToken (E : Externals) : M JsVal :=
  λ w, (Ok (JStr (random_token E (draws w))),
        mkWorld (store w) (response w) (calls w) (ticks w) (Datatypes.S (draws w))).

Definition update_response (f : Response → Response) : M unit :=
  λ w, (Ok tt, mkWorld (store w) (f (response w)) (calls w) (ticks w) (draws w)).

(** [await model.method(args)]: a step of the model, logged.  Calling a
    method the model lacks is a [TypeError]. *)
Definition call (model : Model.t S) (m : Model.Method) (args : list JsVal)
  : M JsVal :=
  λ w, match model m with
       | None => (Throw (Foreign "TypeError: not a function"), w)
       | Some f =>
           let '(r, s') := f args (store w) in
           (r, mkWorld s' (response w) (calls w ++ [mkCall m args r])
                 (ticks w) (draws w))
       end.

End Runtime.

Arguments World S : clear implicits.
Arguments M S A : clear implicits.

#[global] Instance M_ret {S : Type} : MRet (M S) := @ret S.
#[global] Instance M_bind {S : Type} : MBind (M S) := λ A B k m, bind m k.

(** ** Grant types *)

Module AbstractGrantType.
Section Defs.

Context {S : Type} (E : Externals).

(** The options object a grant type is constructed from. *)
Record Options : Type := mkOptions {
  opt_accessTokenLifetime : JsVal;
  opt_model : option (Model.t S);
  opt_refreshTokenLifetime : JsVal;
  opt_alwaysIssueNewRefreshToken : JsVal
}.

Record t : Type := mk {
  accessTokenLifetime : JsVal;
  model : Model.t S;
  refreshTokenLifetime : JsVal;
  alwaysIssueNewRefreshToken : JsVal
}.

Definition new (options : Options) : Outcome t :=
  if falsy (opt_accessTokenLifetime options) then
    Throw (OAuth (InvalidArgumentException
                    "Missing parameter: `accessTokenLifetime`"))
  else
    match opt_model options with
    | None => Throw (OAuth (InvalidArgumentException "Missing parameter: `model`"))
    | Some m =>
        Ok (mk (opt_accessTokenLifetime options) m
              (opt_refreshTokenLifetime options)
              (opt_alwaysIssueNewRefreshToken options))
    end.

(** [if (!options.model.method) throw ...], the check each grant type makes
    on the methods it needs. *)
Definition require (this : t) (m : Model.Method) (message : string)
  : Outcome unit :=
  if Model.lacks (model this) m
  then Throw (OAuth (InvalidArgumentException message))
  else Ok tt.

Definition generateAccessToken (this : t) (client user scope : JsVal)
  : M S JsVal :=
  if Model.lacks (model this) Model.generateAccessToken then
    GenerateRandomToken E
  else
    token ← call (model this) Model.generateAccessToken [client; user; scope];
    if truthy token then mret token else GenerateRandomToken E.

Definition generateRefreshToken (this : t) (client user scope : JsVal)
  : M S JsVal :=
  if Model.lacks (model this) Model.generateRefreshToken then
    GenerateRandomToken E
  else
    token ← call (model this) Model.generateRefreshToken [client; user; scope];
    if truthy token then mret token else GenerateRandomToken E.

(** [expires.setSeconds(expires.getSeconds() + lifetime)] on the time value
    of [expires]; a lifetime is a number of seconds, anything else leaves
    the invalid date. *)
Definition add_seconds (t : Z) (lifetime : JsVal) : option Z :=
  match lifetime with
  | JNum n => Some (t + 1000 * n)
  | _ => None
  end.

Definition getAccessTokenExpiresAt (this : t) : M S JsVal :=
  expires ← now E;
  mret (JDate (add_seconds expires (accessTokenLifetime this))).

Definition getRefreshTokenExpiresAt (this : t) : M S JsVal :=
  expires ← now E;
  mret (JDate (add_seconds expires (refreshTokenLifetime this))).

Definition getScope (request : Request) : M S JsVal :=
  let scope := field (body request !! "scope") in
  throw_if (negb (is_nqschar E scope))
    (InvalidArgumentException "Invalid parameter: `scope`");;
  mret scope.

Definition validateScope (this : t) (user client scope : JsVal) : M S JsVal :=
  if Model.lacks (model this) Model.validateScope then mret scope
  else
    sc ← call (model this) Model.validateScope [user; client; scope];
    throw_if (falsy sc)
      (InvalidScopeException "Invalid scope: Requested scope is invalid");;
    mret sc.

End Defs.

Arguments Options S : clear implicits.
Arguments t S : clear implicits.

End AbstractGrantType.

(** [JObj] of the listed properties, as an object literal is written. *)
Definition object (props : list (string * JsVal)) : JsVal :=
  JObj (list_to_map props).

(** [date.valueOf()] for the comparison of two dates. *)
Definition date_value (v : JsVal) : option Z :=
  match v with JDate t => t | _ => None end.

Module AuthorizationCodeGrantType.
Section Defs.

Context {S : Type} (E : Externals).

Import AbstractGrantType.

Definition new (options : Options S) : Outcome (t S) :=
  match AbstractGrantType.new options with
  | Throw e => Throw e
  | Ok this =>
      match require this Model.getAuthorizationCode
              "Invalid argument: model does not implement `getAuthorizationCode()`" with
      | Throw e => Throw e
      | Ok _ =>
      match require this Model.revokeAuthorizationCode
              "Invalid argument: model does not implement `revokeAuthorizationCode()`" with
      | Throw e => Throw e
      | Ok _ =>
      match require this Model.saveToken
              "Invalid argument: model does not implement `saveToken()`" with
      | Throw e => Throw e
      | Ok _ => Ok this
      end end end
  end.

Definition getAuthorizationCode (this : t S) (request : Request) (client : JsVal)
  : M S JsVal :=
  let c := body request !! "code" in
  throw_if (negb (present c))
    (InvalidRequestException "Missing parameter: `code`");;
  throw_if (negb (is_vschar E (field c)))
    (InvalidRequestException "Invalid parameter: `code`");;
  code ← call (model this) Model.getAuthorizationCode [field c];
  throw_if (falsy code)
    (InvalidGrantException "Invalid grant: authorization code is invalid");;
  throw_if (falsy (get_prop code "client"))
    (ServerException
       "Server error: `getAuthorizationCode()` did not return a `client` object");;
  throw_if (falsy (get_prop code "user"))
    (ServerException
       "Server error: `getAuthorizationCode()` did not return a `user` object");;
  throw_if (negb (strict_eq (get_prop (get_prop code "client") "id")
                    (get_prop client "id")))
    (InvalidGrantException "Invalid grant: authorization code is invalid");;
  throw_if (negb (is_date (get_prop code "expiresAt")))
    (ServerException "Server error: `expiresAt` must be a Date instance");;
  today ← now E;
  throw_if (date_lt (date_value (get_prop code "expiresAt")) (Some today))
    (InvalidGrantException "Invalid grant: authorization code has expired");;
  throw_if (truthy (get_prop code "redirectUri")
            && negb (is_uri E (get_prop code "redirectUri")))
    (InvalidGrantException "Invalid grant: `redirect_uri` is not a valid URI");;
  mret code.

Definition validateRedirectUri (request : Request) (code : JsVal) : M S unit :=
  if falsy (get_prop code "redirectUri") then mret tt
  else
    let redirectUri :=
      field (field_or (body request !! "redirect_uri")
               (query request !! "redirect_uri")) in
    throw_if (negb (is_uri E redirectUri))
      (InvalidRequestException
         "Invalid request: `redirect_uri` is not a valid URI");;
    throw_if (negb (strict_eq redirectUri (get_prop code "redirectUri")))
      (InvalidRequestException "Invalid request: `redirect_uri` is invalid").

Definition revokeAuthorizationCode (this : t S) (code : JsVal) : M S JsVal :=
  status ← call (model this) Model.revokeAuthorizationCode [code];
  throw_if (falsy status)
    (InvalidGrantException "Invalid grant: authorization code is invalid");;
  mret code.

Definition saveToken (this : t S) (user client authorizationCode scope : JsVal)
  : M S JsVal :=
  p_scope ← promise (validateScope this user client scope);
  p_access ← promise (generateAccessToken E this client user scope);
  p_refresh ← promise (generateRefreshToken E this client user scope);
  accessTokenExpiresAt ← getAccessTokenExpiresAt E this;
  refreshTokenExpiresAt ← getRefreshTokenExpiresAt E this;
  accessScope ← await p_scope;
  accessToken ← await p_access;
  refreshToken ← await p_refresh;
  let token := object [
    ("accessToken", accessToken);
    ("authorizationCode", authorizationCode);
    ("accessTokenExpiresAt", accessTokenExpiresAt);
    ("refreshToken", refreshToken);
    ("refreshTokenExpiresAt", refreshTokenExpiresAt);
    ("scope", accessScope)
  ] in
  call (model this) Model.saveToken [token; client; user].

(** The request is a [Request] by its type, so that the check of a missing
    request, here and in the other grant types, cannot fail. *)
Definition handle (this : t S) (request : Request) (client : JsVal) : M S JsVal :=
  throw_if (falsy client)
    (InvalidArgumentException "Missing parameter: `client`");;
  code ← getAuthorizationCode this request client;
  validateRedirectUri request code;;
  revokeAuthorizationCode this code;;
  saveToken this (get_prop code "user") client
    (get_prop code "authorizationCode") (get_prop code "scope").

End Defs.
End AuthorizationCodeGrantType.

Module RefreshTokenGrantType.
Section Defs.

Context {S : Type} (E : Externals).

Import AbstractGrantType.

Definition new (options : Options S) : Outcome (t S) :=
  match AbstractGrantType.new options with
  | Throw e => Throw e
  | Ok this =>
      match require this Model.getRefreshToken
              "Invalid argument: model does not implement `getRefreshToken()`" with
      | Throw e => Throw e
      | Ok _ =>
      match require this Model.revokeToken
              "Invalid argument: model does not implement `revokeToken()`" with
      | Throw e => Throw e
      | Ok _ =>
      match require this Model.saveToken
              "Invalid argument: model does not implement `saveToken()`" with
      | Throw e => Throw e
      | Ok _ => Ok this
      end end end
  end.

Definition getRefreshToken (this : t S) (request : Request) (client : JsVal)
  : M S JsVal :=
  let r := body request !! "refresh_token" in
  throw_if (negb (present r))
    (InvalidRequestException "Missing parameter: `refresh_token`");;
  throw_if (negb (is_vschar E (field r)))
    (InvalidRequestException "Invalid parameter: `refresh_token`");;
  token ← call (model this) Model.getRefreshToken [field r];
  throw_if (falsy token)
    (InvalidGrantException "Invalid grant: refresh token is invalid");;
  throw_if (falsy (get_prop token "client"))
    (ServerException
       "Server error: `getRefreshToken()` did not return a `client` object");;
  throw_if (falsy (get_prop token "user"))
    (ServerException
       "Server error: `getRefreshToken()` did not return a `user` object");;
  throw_if (negb (strict_eq (get_prop (get_prop token "client") "id")
                    (get_prop client "id")))
    (InvalidGrantException "Invalid grant: refresh token is invalid");;
  throw_if (truthy (get_prop token "refreshTokenExpiresAt")
            && negb (is_date (get_prop token "refreshTokenExpiresAt")))
    (ServerException
       "Server error: `refreshTokenExpiresAt` must be a Date instance");;
  (if truthy (get_prop token "refreshTokenExpiresAt") then
     today ← now E;
     throw_if (date_lt (date_value (get_prop token "refreshTokenExpiresAt"))
                 (Some today))
       (InvalidGrantException "Invalid grant: refresh token has expired")
   else mret tt);;
  mret token.

(** [this.alwaysIssueNewRefreshToken === false] *)
Definition keeps_refresh_token (this : t S) : bool :=
  strict_eq (alwaysIssueNewRefreshToken this) (JBool false).

Definition revokeToken (this : t S) (token : JsVal) : M S JsVal :=
  if keeps_refresh_token this then mret token
  else
    status ← call (model this) Model.revokeToken [token];
    throw_if (falsy status)
      (InvalidGrantException "Invalid grant: refresh token is invalid");;
    mret token.

(** [token.k = v] on an object. *)
Definition set_prop (k : string) (v : JsVal) (o : JsVal) : JsVal :=
  match o with
  | JObj props => JObj (<[k := v]> props)
  | _ => o
  end.

Definition saveToken (this : t S) (user client scope : JsVal) : M S JsVal :=
  p_access ← promise (generateAccessToken E this client user scope);
  p_refresh ← promise (generateRefreshToken E this client user scope);
  accessTokenExpiresAt ← getAccessTokenExpiresAt E this;
  refreshTokenExpiresAt ← getRefreshTokenExpiresAt E this;
  accessToken ← await p_access;
  refreshToken ← await p_refresh;
  let token := object [
    ("accessToken", accessToken);
    ("accessTokenExpiresAt", accessTokenExpiresAt);
    ("scope", scope)
  ] in
  let token :=
    if negb (keeps_refresh_token this) then
      set_prop "refreshTokenExpiresAt" refreshTokenExpiresAt
        (set_prop "refreshToken" refreshToken token)
    else token in
  savedToken ← call (model this) Model.saveToken [token; client; user];
  mret savedToken.

Definition handle (this : t S) (request : Request) (client : JsVal) : M S JsVal :=
  throw_if (falsy client)
    (InvalidArgumentException "Missing parameter: `client`");;
  token ← getRefreshToken this request client;
  revokeToken this token;;
  saveToken this (get_prop token "user") client (get_prop token "scope").

End Defs.
End RefreshTokenGrantType.

Module PasswordGrantType.
Section Defs.

Context {S : Type} (E : Externals).

Import AbstractGrantType.

Definition new (options : Options S) : Outcome (t S) :=
  match AbstractGrantType.new options with
  | Throw e => Throw e
  | Ok this =>
      match require this Model.getUser
              "Invalid argument: model does not implement `getUser()`" with
      | Throw e => Throw e
      | Ok _ =>
      match require this Model.saveToken
              "Invalid argument: model does not implement `saveToken()`" with
      | Throw e => Throw e
      | Ok _ => Ok this
      end end
  end.

Definition getUser (this : t S) (request : Request) : M S JsVal :=
  let username := body request !! "username" in
  let password := body request !! "password" in
  throw_if (negb (present username))
    (InvalidRequestException "Missing parameter: `username`");;
  throw_if (negb (present password))
    (InvalidRequestException "Missing parameter: `password`");;
  throw_if (negb (is_uchar E (field username)))
    (InvalidRequestException "Invalid parameter: `username`");;
  throw_if (negb (is_uchar E (field password)))
    (InvalidRequestException "Invalid parameter: `password`");;
  user ← call (model this) Model.getUser [field username; field password];
  throw_if (falsy user)
    (InvalidGrantException "Invalid grant: user credentials are invalid");;
  mret user.

Definition saveToken (this : t S) (user client scope : JsVal) : M S JsVal :=
  p_scope ← promise (validateScope this user client scope);
  p_access ← promise (generateAccessToken E this client user scope);
  p_refresh ← promise (generateRefreshToken E this client user scope);
  accessTokenExpiresAt ← getAccessTokenExpiresAt E this;
  refreshTokenExpiresAt ← getRefreshTokenExpiresAt E this;
  accessScope ← await p_scope;
  accessToken ← await p_access;
  refreshToken ← await p_refresh;
  let token := object [
    ("accessToken", accessToken);
    ("accessTokenExpiresAt", accessTokenExpiresAt);
    ("refreshToken", refreshToken);
    ("refreshTokenExpiresAt", refreshTokenExpiresAt);
    ("scope", accessScope)
  ] in
  call (model this) Model.saveToken [token; client; user].

Definition handle (this : t S) (request : Request) (client : JsVal) : M S JsVal :=
  throw_if (falsy client)
    (InvalidArgumentException "Missing parameter: `client`");;
  scope ← getScope E request;
  user ← getUser this request;
  saveToken this user client scope.

End Defs.
End PasswordGrantType.

Module ClientCredentialsGrantType.
Section Defs.

Context {S : Type} (E : Externals).

Import AbstractGrantType.

Definition new (options : Options S) : Outcome (t S) :=
  match AbstractGrantType.new options with
  | Throw e => Throw e
  | Ok this =>
      match require this Model.getUserFromClient
              "Invalid argument: model does not implement `getUserFromClient()`" with
      | Throw e => Throw e
      | Ok _ =>
      match require this Model.saveToken
              "Invalid argument: model does not implement `saveToken()`" with
      | Throw e => Throw e
      | Ok _ => Ok this
      end end
  end.

Definition getUserFromClient (this : t S) (client : JsVal) : M S JsVal :=
  user ← call (model this) Model.getUserFromClient [client];
  throw_if (falsy user)
    (InvalidGrantException "Invalid grant: user credentials are invalid");;
  mret user.

Definition saveToken (this : t S) (user client scope : JsVal) : M S JsVal :=
  p_scope ← promise (validateScope this user client scope);
  p_access ← promise (generateAccessToken E this client user scope);
  accessTokenExpiresAt ← getAccessTokenExpiresAt E this;
  accessScope ← await p_scope;
  accessToken ← await p_access;
  let token := object [
    ("accessToken", accessToken);
    ("accessTokenExpiresAt", accessTokenExpiresAt);
    ("scope", accessScope)
  ] in
  call (model this) Model.saveToken [token; client; user].

Definition handle (this : t S) (request : Request) (client : JsVal) : M S JsVal :=
  throw_if (falsy client)
    (InvalidArgumentException "Missing parameter: `client`");;
  scope ← getScope E request;
  user ← getUserFromClient this client;
  saveToken this user client scope.

End Defs.
End ClientCredentialsGrantType.

(** ** The token value and its Bearer encoding *)

Module TokenModel.
Section Defs.

Context {S : Type} (E : Externals).

Definition modelAttributes : list string := [
  "accessToken";
  "accessTokenExpiresAt";
  "client";
  "refreshToken";
  "refreshTokenExpiresAt";
  "scope";
  "user"
].

Record t : Type := mk {
  accessToken : JsVal;
  accessTokenExpiresAt : JsVal;
  client : JsVal;
  refreshToken : JsVal;
  refreshTokenExpiresAt : JsVal;
  scope : JsVal;
  user : JsVal;
  customAttributes : JsVal;
  accessTokenLifetime : JsVal
}.

(** The own properties of [data] whose key is not a model attribute. *)
Definition custom_of (data : JsVal) : JsVal :=
  match data with
  | JObj props =>
      JObj (filter (λ kv, kv.1 ∉ modelAttributes) props)
  | _ => JObj ∅
  end.

(** [Math.floor((expiresAt.getTime() - now) / msInS)] *)
Definition lifetime_of (expiresAt : JsVal) (today : Z) : JsVal :=
  match expiresAt with
  | JDate (Some t) => JNum ((t - today) / 1000)
  | _ => JNaN
  end.

(** The constructor.  [data] defaults to the empty object when it is
    [undefined]; reading a property of [null] is a [TypeError]. *)
Definition new (data : JsVal) (allowExtendedTokenAttributes : JsVal)
  : M S t :=
  match data with
  | JNull => throw (Foreign "TypeError: cannot read properties of null")
  | _ =>
    let data := match data with JUndefined => JObj ∅ | _ => data end in
    throw_if (falsy (get_prop data "accessToken"))
      (InvalidArgumentException "Missing parameter: `accessToken`");;
    throw_if (falsy (get_prop data "client"))
      (InvalidArgumentException "Missing parameter: `client`");;
    throw_if (falsy (get_prop data "user"))
      (InvalidArgumentException "Missing parameter: `user`");;
    throw_if (truthy (get_prop data "accessTokenExpiresAt")
              && negb (is_date (get_prop data "accessTokenExpiresAt")))
      (InvalidArgumentException "Invalid parameter: `accessTokenExpiresAt`");;
    throw_if (truthy (get_prop data "refreshTokenExpiresAt")
              && negb (is_date (get_prop data "refreshTokenExpiresAt")))
      (InvalidArgumentException "Invalid parameter: `refreshTokenExpiresAt`");;
    let custom :=
      if truthy allowExtendedTokenAttributes then custom_of data
      else JUndefined in
    lifetime ←
      (if truthy (get_prop data "accessTokenExpiresAt") then
         today ← now E;
         mret (lifetime_of (get_prop data "accessTokenExpiresAt") today)
       else mret JUndefined);
    mret (mk (get_prop data "accessToken")
            (get_prop data "accessTokenExpiresAt")
            (get_prop data "client")
            (get_prop data "refreshToken")
            (get_prop data "refreshTokenExpiresAt")
            (get_prop data "scope")
            (get_prop data "user")
            custom
            lifetime)
  end.

End Defs.
End TokenModel.

Module BearerTokenType.

Record t : Type := mk {
  accessToken : JsVal;
  accessTokenLifetime : JsVal;
  refreshToken : JsVal;
  scope : JsVal;
  customAttributes : JsVal
}.

(** [null] or absent *)
Definition missing (v : JsVal) : bool :=
  match v with JUndefined | JNull => true | _ => false end.

Definition own_props (v : JsVal) : gmap string JsVal :=
  match v with JObj props => props | _ => ∅ end.

(** Modelled from the spec: [valueOf], the body of a successful token
    response: [access_token], [token_type] "Bearer", [expires_in],
    [refresh_token] and [scope] unless null or absent, and the extended
    keys. *)
Definition valueOf (this : t) : JsVal :=
  let base : gmap string JsVal :=
    <["access_token" := accessToken this]>
      (<["token_type" := JStr "Bearer"]>
         (<["expires_in" := accessTokenLifetime this]> ∅)) in
  let base :=
    if missing (refreshToken this) then base
    else <["refresh_token" := refreshToken this]> base in
  let base :=
    if missing (scope this) then base
    else <["scope" := scope this]> base in
  JObj (own_props (customAttributes this) ∪ base).

End BearerTokenType.

(** ** The token endpoint *)

Module TokenHandler.
Section Defs.

Context {S : Type} (E : Externals).

(** A grant type class of the registry: one of the four built in, or an
    extension, given by what [new Type(options).handle(request, client)]
    does. *)
Inductive GrantClass : Type :=
| AuthorizationCode
| ClientCredentials
| Password
| RefreshToken
| Extension (run : AbstractGrantType.Options S → Request → JsVal → M S JsVal).

Definition grantTypes : gmap string GrantClass :=
  list_to_map [
    ("authorization_code", AuthorizationCode);
    ("client_credentials", ClientCredentials);
    ("password", Password);
    ("refresh_token", RefreshToken)
  ].

Record Options : Type := mkOptions {
  opt_accessTokenLifetime : JsVal;
  opt_model : option (Model.t S);
  opt_refreshTokenLifetime : JsVal;
  opt_extendedGrantTypes : gmap string GrantClass;
  opt_allowExtendedTokenAttributes : JsVal;
  opt_requireClientAuthentication : option (gmap string JsVal);
  opt_alwaysIssueNewRefreshToken : JsVal
}.

(** The handler; [registry] is its field [grantTypes], the built-in grant
    types with the extensions of the options laid over them. *)
Record t : Type := mk {
  accessTokenLifetime : JsVal;
  registry : gmap string GrantClass;
  model : Model.t S;
  refreshTokenLifetime : JsVal;
  allowExtendedTokenAttributes : JsVal;
  requireClientAuthentication : gmap string JsVal;
  alwaysIssueNewRefreshToken : bool
}.

Definition new (options : Options) : Outcome t :=
  if falsy (opt_accessTokenLifetime options) then
    Throw (OAuth (InvalidArgumentException
                    "Missing parameter: `accessTokenLifetime`"))
  else
    match opt_model options with
    | None => Throw (OAuth (InvalidArgumentException "Missing parameter: `model`"))
    | Some m =>
        if falsy (opt_refreshTokenLifetime options) then
          Throw (OAuth (InvalidArgumentException
                          "Missing parameter: `refreshTokenLifetime`"))
        else if Model.lacks m Model.getClient then
          Throw (OAuth (InvalidArgumentException
                          "Invalid argument: model does not implement `getClient()`"))
        else
          Ok (mk (opt_accessTokenLifetime options)
                (opt_extendedGrantTypes options ∪ grantTypes)
                m
                (opt_refreshTokenLifetime options)
                (opt_allowExtendedTokenAttributes options)
                (default ∅ (opt_requireClientAuthentication options))
                (negb (strict_eq (opt_alwaysIssueNewRefreshToken options)
                         (JBool false))))
    end.

(** The property name a request field is read as: an absent field is the
    key "undefined". *)
Definition property_key (f : option string) : string := default "undefined" f.

Definition isClientAuthenticationRequired (this : t) (grantType : option string)
  : JsVal :=
  if has_keys (JObj (requireClientAuthentication this)) then
    let entry := get_prop (JObj (requireClientAuthentication this))
                   (property_key grantType) in
    if is_defined entry then entry else JBool true
  else JBool true.

(** [auth(request)]: the credentials of the [Authorization] header.  The
    pattern of the header starts with the name of the scheme, so that an
    empty header holds no credentials. *)
Definition auth (request : Request) : option (string * string) :=
  match req_get request "authorization" with
  | Some h => if present (Some h) then basic_auth E h else None
  | None => None
  end.

(** The challenge of the [WWW-Authenticate] header: the scheme [Basic] and
    the realm [Service] between double quotes. *)
Definition challenge : string :=
  "Basic realm=" ++ String "034" ("Service" ++ String "034" EmptyString).

(** The credentials object: [clientId], and [clientSecret] when there is
    one. *)
Definition getClientCredentials (this : t) (request : Request)
  : M S (JsVal * JsVal) :=
  let grantType := body request !! "grant_type" in
  match auth request with
  | Some (name, pass) => mret (JStr name, JStr pass)
  | None =>
      if present (body request !! "client_id")
         && present (body request !! "client_secret") then
        mret (field (body request !! "client_id"),
              field (body request !! "client_secret"))
      else if falsy (isClientAuthenticationRequired this grantType)
              && present (body request !! "client_id") then
        mret (field (body request !! "client_id"), JUndefined)
      else
        raise (InvalidClientException
                 "Invalid client: cannot retrieve client credentials")
  end.

Definition instance_of (k : ErrorKind) (t : Thrown) : bool :=
  match t with
  | OAuth e => bool_decide (exc_kind e = k)
  | Foreign _ => false
  end.

Definition getClient (this : t) (request : Request) : M S JsVal :=
  '(clientId, clientSecret) ← getClientCredentials this request;
  let grantType := body request !! "grant_type" in
  throw_if (falsy clientId)
    (InvalidRequestException "Missing parameter: `client_id`");;
  throw_if (truthy (isClientAuthenticationRequired this grantType)
            && falsy clientSecret)
    (InvalidRequestException "Missing parameter: `client_secret`");;
  throw_if (negb (is_vschar E clientId))
    (InvalidRequestException "Invalid parameter: `client_id`");;
  throw_if (truthy clientSecret && negb (is_vschar E clientSecret))
    (InvalidRequestException "Invalid parameter: `client_secret`");;
  try_catch
    (client ← call (model this) Model.getClient [clientId; clientSecret];
     throw_if (falsy client)
       (InvalidClientException "Invalid client: client is invalid");;
     throw_if (falsy (get_prop client "grants"))
       (ServerException "Server error: missing client `grants`");;
     throw_if (negb (is_array (get_prop client "grants")))
       (ServerException "Server error: `grants` must be an array");;
     mret client)
    (λ e,
       if instance_of invalid_client e
          && present (req_get request "authorization") then
         update_response (resp_set "WWW-Authenticate" challenge);;
         raise (exception invalid_client (thrown_message e) (Some 401))
       else throw e).

Definition getAccessTokenLifetime (this : t) (client : JsVal) : JsVal :=
  or_else (get_prop client "accessTokenLifetime") (accessTokenLifetime this).

Definition getRefreshTokenLifetime (this : t) (client : JsVal) : JsVal :=
  or_else (get_prop client "refreshTokenLifetime") (refreshTokenLifetime this).

(** [new Type(options).handle(request, client)] *)
Definition run_grant (T : GrantClass) (options : AbstractGrantType.Options S)
    (request : Request) (client : JsVal) : M S JsVal :=
  match T with
  | AuthorizationCode =>
      this ← await (AuthorizationCodeGrantType.new options);
      AuthorizationCodeGrantType.handle E this request client
  | ClientCredentials =>
      this ← await (ClientCredentialsGrantType.new options);
      ClientCredentialsGrantType.handle E this request client
  | Password =>
      this ← await (PasswordGrantType.new options);
      PasswordGrantType.handle E this request client
  | RefreshToken =>
      this ← await (RefreshTokenGrantType.new options);
      RefreshTokenGrantType.handle E this request client
  | Extension run => run options request client
  end.

(** [has(this.grantTypes, grantType)], for a grant type that names a
    property directly: the registry has it as a key of its own. *)
Definition has (reg : gmap string GrantClass) (grantType : string) : bool :=
  bool_decide (is_Some (reg !! grantType)).

Definition handleGrantType (this : t) (request : Request) (client : JsVal)
  : M S JsVal :=
  let grantType := body request !! "grant_type" in
  throw_if (negb (present grantType))
    (InvalidRequestException "Missing parameter: `grant_type`");;
  throw_if (negb (is_nchar E (field grantType))
            && negb (is_uri E (field grantType)))
    (InvalidRequestException "Invalid parameter: `grant_type`");;
  throw_if (negb (has (registry this) (property_key grantType)))
    (UnsupportedGrantTypeException
       "Unsupported grant type: `grant_type` is invalid");;
  throw_if (negb (includes (get_prop client "grants") (field grantType)))
    (UnauthorizedClientException
       "Unauthorized client: `grant_type` is invalid");;
  let options :=
    AbstractGrantType.mkOptions
      (getAccessTokenLifetime this client)
      (Some (model this))
      (getRefreshTokenLifetime this client)
      (JBool (alwaysIssueNewRefreshToken this)) in
  match registry this !! property_key grantType with
  | Some T => run_grant T options request client
  | None => throw (Foreign "TypeError: Type is not a constructor")
  end.

Definition getTokenType (model : TokenModel.t) : BearerTokenType.t :=
  BearerTokenType.mk
    (TokenModel.accessToken model)
    (TokenModel.accessTokenLifetime model)
    (TokenModel.refreshToken model)
    (TokenModel.scope model)
    (TokenModel.customAttributes model).

Definition updateSuccessResponse (tokenType : BearerTokenType.t) : M S unit :=
  update_response (set_body (BearerTokenType.valueOf tokenType));;
  update_response (resp_set "Cache-Control" "no-store");;
  update_response (resp_set "Pragma" "no-cache").

(** [{ error: error.name, error_description: error.message }] *)
Definition error_body (error : OAuthException) : JsVal :=
  object [
    ("error", JStr (exc_name error));
    ("error_description", JStr (exc_message error))
  ].

Definition updateErrorResponse (error : OAuthException) : M S unit :=
  update_response (set_body (error_body error));;
  update_response (set_status (exc_code error)).

(** The body of the [try] block of [handle]. *)
Definition issue (this : t) (request : Request) : M S JsVal :=
  client ← getClient this request;
  data ← handleGrantType this request client;
  model ← TokenModel.new E data (allowExtendedTokenAttributes this);
  let tokenType := getTokenType model in
  updateSuccessResponse tokenType;;
  mret data.

(** The request and the response are value objects by their types, so that
    the two [instanceof] checks cannot fail; the response is the one of the
    world. *)
Definition handle (this : t) (request : Request) : M S JsVal :=
  throw_if (negb (String.eqb (method request) "POST"))
    (InvalidRequestException "Invalid request: method must be POST");;
  throw_if (negb (type_is E request "application/x-www-form-urlencoded"))
    (InvalidRequestException
       "Invalid request: content must be application/x-www-form-urlencoded");;
  try_catch (issue this request)
    (λ e,
       let e := as_oauth e in
       updateErrorResponse e;;
       raise e).

End Defs.

Arguments t S : clear implicits.
Arguments Options S : clear implicits.
Arguments GrantClass S : clear implicits.

End TokenHandler.

(** ** The authorization endpoint *)

Module CodeResponseType.
Section Defs.

Context {S : Type} (E : Externals).

Record t : Type := mk { code : JsVal }.

Definition new (code : JsVal) : M S t :=
  throw_if (falsy code) (InvalidArgumentException "Missing parameter: `code`");;
  mret (mk code).

(** [parse(redirectUri, true)]; only a string can be parsed. *)
Definition parse (redirectUri : JsVal) : M S Url :=
  match redirectUri with
  | JStr u => mret (url_parse E u)
  | _ => throw (Foreign "TypeError: the url must be a string")
  end.

Definition buildRedirectUri (this : t) (redirectUri : JsVal) : M S Url :=
  throw_if (falsy redirectUri)
    (InvalidArgumentException "Missing parameter: `redirectUri`");;
  uri ← parse redirectUri;
  mret (mkUrl (url_base uri) None (<["code" := code this]> (url_query uri))).

End Defs.
End CodeResponseType.

Module AuthorizeHandler.
Section Defs.

Context {S : Type} (E : Externals).

(** The authenticate handler the options supply, or the library's own:
    what its [handle] does, and whether it is an [AuthenticateHandler]. *)
Record Authenticator : Type := mkAuthenticator {
  is_AuthenticateHandler : bool;
  authenticate : Request → M S JsVal
}.

Record t : Type := mk {
  allowEmptyState : JsVal;
  authenticateHandler : Authenticator;
  authorizationCodeLifetime : JsVal;
  model : Model.t S
}.

(** [o.k]; reading a property of [null] or [undefined] is a [TypeError]. *)
Definition member (o : JsVal) (k : string) : M S JsVal :=
  match o with
  | JUndefined | JNull =>
      throw (Foreign "TypeError: cannot read properties of undefined")
  | _ => mret (get_prop o k)
  end.

(** [v.includes(x)] for a string [x]: on an array, on a string, and a
    [TypeError] on anything else. *)
Definition includes_call (v : JsVal) (x : string) : M S bool :=
  match v with
  | JArr items => mret (existsb (same_value_zero (JStr x)) items)
  | JStr s => mret (bool_decide (is_Some (String.index 0 x s)))
  | _ => throw (Foreign "TypeError: includes is not a function")
  end.

(** [v.length] *)
Definition length_of (v : JsVal) : JsVal :=
  match v with
  | JArr items => JNum (Z.of_nat (length items))
  | JStr s => JNum (Z.of_nat (String.length s))
  | _ => get_prop v "length"
  end.

(** [v[0]] *)
Definition first (v : JsVal) : JsVal :=
  match v with
  | JArr (x :: _) => x
  | JStr (String c _) => JStr (String c EmptyString)
  | JObj props => default JUndefined (props !! "0")
  | _ => JUndefined
  end.

Definition generateAuthorizationCode (this : t) (client user scope : JsVal)
  : M S JsVal :=
  if Model.lacks (model this) Model.generateAuthorizationCode then
    GenerateRandomToken E
  else
    call (model this) Model.generateAuthorizationCode [client; user; scope].

Definition getAuthorizationCodeLifetime (this : t) : M S JsVal :=
  expires ← now E;
  mret (JDate (AbstractGrantType.add_seconds expires
                 (authorizationCodeLifetime this))).

Definition getClient (this : t) (request : Request) : M S JsVal :=
  let clientId :=
    field_or (body request !! "client_id") (query request !! "client_id") in
  throw_if (negb (present clientId))
    (InvalidRequestException "Missing parameter: `client_id`");;
  throw_if (negb (is_vschar E (field clientId)))
    (InvalidRequestException "Invalid parameter: `client_id`");;
  let redirectUri :=
    field_or (body request !! "redirect_uri") (query request !! "redirect_uri") in
  throw_if (present redirectUri && negb (is_uri E (field redirectUri)))
    (InvalidRequestException
       "Invalid request: `redirect_uri` is not a valid URI");;
  client ← call (model this) Model.getClient [field clientId];
  throw_if (falsy client)
    (InvalidClientException "Invalid client: client credentials are invalid");;
  throw_if (falsy (get_prop client "grants"))
    (InvalidClientException "Invalid client: missing client `grants`");;
  granted ← includes_call (get_prop client "grants") "authorization_code";
  throw_if (negb granted)
    (UnauthorizedClientException
       "Unauthorized client: `grant_type` is invalid");;
  throw_if (falsy (get_prop client "redirectUris")
            || strict_eq (length_of (get_prop client "redirectUris")) (JNum 0))
    (InvalidClientException "Invalid client: missing client `redirectUri`");;
  (if present redirectUri then
     listed ← includes_call (get_prop client "redirectUris")
                (default EmptyString redirectUri);
     throw_if (negb listed)
       (InvalidClientException
          "Invalid client: `redirect_uri` does not match client value")
   else mret tt);;
  mret client.

Definition getScope (request : Request) : M S JsVal :=
  let scope :=
    field (field_or (body request !! "scope") (query request !! "scope")) in
  throw_if (negb (is_nqschar E scope))
    (InvalidScopeException "Invalid parameter: `scope`");;
  mret scope.

Definition getState (this : t) (request : Request) : M S JsVal :=
  let state :=
    field (field_or (body request !! "state") (query request !! "state")) in
  throw_if (falsy (allowEmptyState this) && falsy state)
    (InvalidRequestException "Missing parameter: `state`");;
  throw_if (negb (is_vschar E state))
    (InvalidRequestException "Invalid parameter: `state`");;
  mret state.

Definition getUser (this : t) (request : Request) : M S JsVal :=
  if is_AuthenticateHandler (authenticateHandler this) then
    data ← authenticate (authenticateHandler this) request;
    member data "user"
  else
    user ← authenticate (authenticateHandler this) request;
    throw_if (falsy user)
      (ServerException
         "Server error: `handle()` did not return a `user` object");;
    mret user.

Definition getRedirectUri (request : Request) (client : JsVal) : JsVal :=
  or_else
    (field (field_or (body request !! "redirect_uri")
              (query request !! "redirect_uri")))
    (first (get_prop client "redirectUris")).

Definition saveAuthorizationCode (this : t)
    (authorizationCode expiresAt scope client redirectUri user : JsVal)
  : M S JsVal :=
  let code := object [
    ("authorizationCode", authorizationCode);
    ("expiresAt", expiresAt);
    ("redirectUri", redirectUri);
    ("scope", scope)
  ] in
  call (model this) Model.saveAuthorizationCode [code; client; user].

(** The registry of response types has the single key [code]. *)
Definition getResponseType (request : Request) : M S unit :=
  let responseType :=
    field_or (body request !! "response_type")
      (query request !! "response_type") in
  throw_if (negb (present responseType))
    (InvalidRequestException "Missing parameter: `response_type`");;
  throw_if (negb (String.eqb (default EmptyString responseType) "code"))
    (UnsupportedResponseTypeException
       "Unsupported response type: `response_type` is not supported").

Definition buildSuccessRedirectUri (redirectUri : JsVal)
    (responseType : CodeResponseType.t) : M S Url :=
  CodeResponseType.buildRedirectUri E responseType redirectUri.

Definition buildErrorRedirectUri (redirectUri : JsVal) (error : OAuthException)
  : M S Url :=
  uri ← CodeResponseType.parse E redirectUri;
  let q : gmap string JsVal := {["error" := JStr (exc_name error)]} in
  let q :=
    if truthy (JStr (exc_message error))
    then <["error_description" := JStr (exc_message error)]> q
    else q in
  mret (mkUrl (url_base uri) (url_search uri) q).

Definition updateResponse (redirectUri : Url) (state : JsVal) : M S unit :=
  let q :=
    if truthy state then <["state" := state]> (url_query redirectUri)
    else url_query redirectUri in
  update_response
    (resp_redirect
       (url_format E (mkUrl (url_base redirectUri) (url_search redirectUri) q))).

(** The [catch] block of [handle]; [state] is what the variable holds when
    the error is caught. *)
Definition on_error (uri state : JsVal) (e : Thrown) : M S JsVal :=
  let e := as_oauth e in
  redirectUri ← buildErrorRedirectUri uri e;
  updateResponse redirectUri state;;
  raise e.

(** The three computations handed to [Promise.all] are started in their
    order, and awaited in their order. *)
Definition handle (this : t) (request : Request) : M S JsVal :=
  throw_if (bool_decide (query request !! "allowed" = Some "false"))
    (AccessDeniedException "Access denied: user denied access to application");;
  expiresAt ← getAuthorizationCodeLifetime this;
  p_client ← promise (getClient this request);
  p_user ← promise (getUser this request);
  client ← await p_client;
  user ← await p_user;
  let uri := getRedirectUri request client in
  started ← promise (
    scope ← getScope request;
    authorizationCode ← generateAuthorizationCode this client user scope;
    state ← getState this request;
    mret (scope, authorizationCode, state));
  match started with
  | Throw e => on_error uri JUndefined e
  | Ok (scope, authorizationCode, state) =>
      try_catch
        (getResponseType request;;
         code ← saveAuthorizationCode this authorizationCode expiresAt scope
                  client uri user;
         issued ← member code "authorizationCode";
         responseType ← CodeResponseType.new issued;
         redirectUri ← buildSuccessRedirectUri uri responseType;
         updateResponse redirectUri state;;
         mret code)
        (on_error uri state)
  end.

End Defs.

Arguments t S : clear implicits.
Arguments Authenticator S : clear implicits.

End AuthorizeHandler.

(** ** Reasoning about runs

    [wp m Q w]: running [m] from the world [w] ends in an outcome and a
    world that satisfy [Q]. *)

Definition wp {S A : Type} (m : M S A) (Q : Outcome A → World S → Prop)
    (w : World S) : Prop :=
  Q (m w).1 (m w).2.

(** The calls a run has added to the log. *)
Definition extends {S : Type} (w w' : World S) (tr : list Call) : Prop :=
  calls w' = (calls w ++ tr)%list.

(** No call of the method [m] in a log. *)
Definition never (m : Model.Method) (tr : list Call) : Prop :=
  Forall (λ c, call_method c ≠ m) tr.

(** Every call of [b] in a log comes after a call of [a]. *)
Definition precedes (a b : Model.Method) (tr : list Call) : Prop :=
  ∀ i c, tr !! i = Some c → call_method c = b →
    ∃ j c', (j < i)%nat ∧ tr !! j = Some c' ∧ call_method c' = a.

(** A call of [m] that returned a falsy value. *)
Definition returned_falsy (m : Model.Method) (c : Call) : Prop :=
  call_method c = m ∧ ∃ v, call_result c = Ok v ∧ truthy v = false.

(** What a call made while a token is saved may be: a call of one of the
    optional generators, or the call of [saveToken] itself, on a token
    object whose properties satisfy [P], for the client and the user. *)
Definition saving (client user : JsVal) (P : gmap string JsVal → Prop)
    (c : Call) : Prop :=
  match call_method c with
  | Model.validateScope
  | Model.generateAccessToken
  | Model.generateRefreshToken => True
  | Model.saveToken =>
      ∃ props, call_args c = [JObj props; client; user] ∧ P props
  | _ => False
  end.

(** The method [m] was called in a log and returned [v]. *)
Definition returned (m : Model.Method) (v : JsVal) (tr : list Call) : Prop :=
  ∃ c, c ∈ tr ∧ call_method c = m ∧ call_result c = Ok v.

(** The properties of the token the refresh token grant saves for the
    refresh token [old]: the scope of [old]; no refresh token when the
    grant keeps the old one; otherwise a refresh token that
    [generateRefreshToken] returned, and its expiry. *)
Definition refreshed {S : Type} (E : Externals) (this : AbstractGrantType.t S)
    (client user scope : JsVal) (props : gmap string JsVal) : Prop :=
  props !! "scope" = Some scope ∧
  if RefreshTokenGrantType.keeps_refresh_token this then
    props !! "refreshToken" = None ∧ props !! "refreshTokenExpiresAt" = None
  else
    is_Some (props !! "refreshTokenExpiresAt") ∧
    ∃ v w1 w2,
      props !! "refreshToken" = Some v ∧
      AbstractGrantType.generateRefreshToken E this client user scope w1
        = (Ok v, w2).

(** The world with its response changed by [f]. *)
Definition with_response {S : Type} (f : Response → Response) (w : World S)
  : World S :=
  mkWorld (store w) (f (response w)) (calls w) (ticks w) (draws w).

(** The world after one reading of the clock. *)
Definition tick {S : Type} (w : World S) : World S :=
  mkWorld (store w) (response w) (calls w) (Datatypes.S (ticks w)) (draws w).

(** ** A model in memory and an environment, to run the handlers on

    The store is the list of the authorization codes and refresh tokens
    that were revoked. *)

Module Fixture.

Definition in_class (ok : nat → bool) (s : string) : bool :=
  match s with
  | EmptyString => false
  | _ => forallb (λ c, ok (nat_of_ascii c)) (list_ascii_of_string s)
  end.

Definition between (lo hi n : nat) : bool := (Nat.leb lo n && Nat.leb n hi)%bool.

Definition alnum (n : nat) : bool :=
  (between 48 57 n || between 65 90 n || between 97 122 n)%bool.

(** The text a regular expression tests a value as. *)
Definition text (v : JsVal) : string :=
  match v with
  | JStr s => s
  | JUndefined => "undefined"
  | JNull => "null"
  | JBool true => "true"
  | JBool false => "false"
  | _ => "[object Object]"
  end.

(** Modelled from the spec: the character classes [VSCHAR], [NCHAR],
    [NQSCHAR] and [UNICODECHARNOCRLF] of the validators, over the bytes of
    a text. *)
Definition vschar (v : JsVal) : bool := in_class (between 32 126) (text v).

Definition nchar (v : JsVal) : bool :=
  in_class (λ n, (Nat.eqb n 45 || Nat.eqb n 46 || Nat.eqb n 95 || alnum n)%bool)
    (text v).

Definition nqschar (v : JsVal) : bool :=
  in_class (λ n, (between 32 33 n || between 35 91 n || between 93 126 n)%bool)
    (text v).

Definition uchar (v : JsVal) : bool :=
  in_class (λ n, (Nat.eqb n 9 || between 32 126 n || Nat.leb 128 n)%bool) (text v).

(** A stand-in for the [URI] validator: a scheme of letters and a colon. *)
Fixpoint scheme (seen : bool) (s : string) : bool :=
  match s with
  | EmptyString => false
  | String c rest =>
      if Ascii.eqb c ":" then seen
      else if alnum (nat_of_ascii c) then scheme true rest
      else false
  end.

Definition uri (v : JsVal) : bool := scheme false (text v).

(** A stand-in for [basic-auth]: the scheme name, a space, and the
    credentials as [name:pass] in clear. *)
Fixpoint split_colon (acc s : string) : option (string * string) :=
  match s with
  | EmptyString => None
  | String c rest =>
      if Ascii.eqb c ":" then Some (acc, rest)
      else split_colon (acc ++ String c EmptyString) rest
  end.

Definition basic (h : string) : option (string * string) :=
  if String.prefix "Basic " h
  then split_colon EmptyString (String.substring 6 (String.length h - 6) h)
  else None.

Definition form (r : Request) (type : string) : bool :=
  bool_decide (req_get r "content-type" = Some type).

(** A stand-in for the [url] package: the address is kept whole and the
    query is written after it. *)
Definition write_query (q : gmap string JsVal) : string :=
  String.concat "&" ((λ kv, kv.1 ++ "=" ++ text kv.2) <$> map_to_list q).

Definition format (u : Url) : string :=
  match url_search u with
  | Some s => url_base u ++ s
  | None => url_base u ++ "?" ++ write_query (url_query u)
  end.

Definition env : Externals := {|
  is_vschar := vschar;
  is_nchar := nchar;
  is_nqschar := nqschar;
  is_uchar := uchar;
  is_uri := uri;
  basic_auth := basic;
  type_is := form;
  url_parse := λ u, mkUrl u None ∅;
  url_format := format;
  clock := λ n, 1000000 + 7 * Z.of_nat n;
  random_token := λ n, if Nat.even n then "token-even" else "token-odd"
|}.

Definition c1 : JsVal := object [
  ("id", JStr "c1");
  ("grants", JArr [JStr "authorization_code"; JStr "refresh_token";
                   JStr "password"]);
  ("redirectUris", JArr [JStr "https://x.test/cb"])
].

Definition u1 : JsVal := object [("id", JStr "u1")].

Definition abc : JsVal := object [
  ("authorizationCode", JStr "abc");
  ("expiresAt", JDate (Some 1060000));
  ("redirectUri", JStr "https://x.test/cb");
  ("client", c1);
  ("user", u1)
].

Definition r1 : JsVal := object [
  ("refreshToken", JStr "r1");
  ("scope", JStr "read");
  ("client", c1);
  ("user", u1)
].

Definition revoked (key : JsVal) (s : list string) : bool :=
  match key with
  | JStr k => bool_decide (k ∈ s)
  | _ => false
  end.

Definition key_of (v : JsVal) (k : string) : list string :=
  match get_prop v k with JStr s => [s] | _ => [] end.

(** [saveToken] hands back the token with its client and user. *)
Definition persisted (token client user : JsVal) : JsVal :=
  RefreshTokenGrantType.set_prop "user" user
    (RefreshTokenGrantType.set_prop "client" client token).

Definition model : Model.t (list string) := λ m,
  match m with
  | Model.getClient => Some (λ args s,
      match args with
      | JStr "c1" :: JStr "s1" :: _ => (Ok c1, s)
      | [JStr "c1"] => (Ok c1, s)
      | _ => (Ok JNull, s)
      end)
  | Model.getAuthorizationCode => Some (λ args s,
      match args with
      | [JStr "abc"] => (Ok (if revoked (JStr "abc") s then JNull else abc), s)
      | _ => (Ok JNull, s)
      end)
  | Model.revokeAuthorizationCode => Some (λ args s,
      match args with
      | [code] => (Ok (JBool true), (key_of code "authorizationCode" ++ s)%list)
      | _ => (Ok (JBool false), s)
      end)
  | Model.getRefreshToken => Some (λ args s,
      match args with
      | [JStr "r1"] => (Ok (if revoked (JStr "r1") s then JNull else r1), s)
      | _ => (Ok JNull, s)
      end)
  | Model.revokeToken => Some (λ args s,
      match args with
      | [token] => (Ok (JBool true), (key_of token "refreshToken" ++ s)%list)
      | _ => (Ok (JBool false), s)
      end)
  | Model.saveToken => Some (λ args s,
      match args with
      | [token; client; user] => (Ok (persisted token client user), s)
      | _ => (Throw (Foreign "saveToken: bad arguments"), s)
      end)
  | Model.getUser => Some (λ args s,
      match args with
      | [JStr "alice"; JStr "secret"] => (Ok u1, s)
      | _ => (Ok JNull, s)
      end)
  | Model.getUserFromClient => Some (λ args s, (Ok u1, s))
  | Model.saveAuthorizationCode => Some (λ args s,
      match args with
      | code :: _ => (Ok code, s)
      | [] => (Ok JUndefined, s)
      end)
  | _ => None
  end.

Definition fresh_response : Response := mkResponse 200 (JObj ∅) ∅.

Definition world : World (list string) := mkWorld [] fresh_response [] 0 0.

Definition grant (always : JsVal) : AbstractGrantType.t (list string) :=
  AbstractGrantType.mk (JNum 3600) model (JNum 1209600) always.

Definition token_options : TokenHandler.Options (list string) :=
  TokenHandler.mkOptions (JNum 3600) (Some model) (JNum 1209600) ∅
    (JBool true) None JUndefined.

Definition token_handler : TokenHandler.t (list string) :=
  TokenHandler.mk (JNum 3600) TokenHandler.grantTypes model (JNum 1209600)
    (JBool true) ∅ true.

Definition form_headers : gmap string string :=
  {["content-type" := "application/x-www-form-urlencoded"]}.

(** Scenario S1: the exchange of the code [abc]. *)
Definition exchange : Request :=
  mkRequest "POST" form_headers
    (list_to_map [
       ("grant_type", "authorization_code");
       ("code", "abc");
       ("redirect_uri", "https://x.test/cb");
       ("client_id", "c1");
       ("client_secret", "s1")])
    ∅.

(** The exchange of S1 sent with the method GET. *)
Definition exchange_by_get : Request :=
  mkRequest "GET" (headers exchange) (body exchange) ∅.

(** Scenario S3: a refresh with the credentials in the header. *)
Definition refresh : Request :=
  mkRequest "POST" (<["authorization" := "Basic c1:s1"]> form_headers)
    (list_to_map [("grant_type", "refresh_token"); ("refresh_token", "r1")])
    ∅.

(** Scenario S5: the user denied the authorization. *)
Definition denied : Request :=
  mkRequest "GET" ∅ ∅
    (list_to_map [
       ("client_id", "c1");
       ("response_type", "code");
       ("redirect_uri", "https://x.test/cb");
       ("state", "xyz");
       ("allowed", "false")]).

Definition authorize_handler : AuthorizeHandler.t (list string) :=
  AuthorizeHandler.mk (JBool false)
    (AuthorizeHandler.mkAuthenticator false (λ _, mret u1))
    (JNum 300) model.

(** The exchange of S1 with a grant type that is not registered
    (scenario S6). *)
Definition unsupported : Request :=
  mkRequest "POST" form_headers
    (list_to_map [
       ("grant_type", "foo");
       ("client_id", "c1");
       ("client_secret", "s1")])
    ∅.

(** A password request whose scope has a backslash, which is not NQSCHAR. *)
Definition bad_scope : Request :=
  mkRequest "POST" form_headers
    (list_to_map [
       ("grant_type", "password");
       ("username", "alice");
       ("password", "secret");
       ("client_id", "c1");
       ("client_secret", "s1");
       ("scope", "read\write")])
    ∅.


(** Options that turn client authentication off for the password grant. *)
Definition public_password : TokenHandler.Options (list string) :=
  TokenHandler.mkOptions (JNum 3600) (Some model) (JNum 1209600) ∅
    (JBool false) (Some {["password" := JBool false]}) JUndefined.

Definition public_handler : TokenHandler.t (list string) :=
  TokenHandler.mk (JNum 3600) TokenHandler.grantTypes model (JNum 1209600)
    (JBool false) {["password" := JBool false]} true.

(** A token as [saveToken] hands it back, expiring one hour after the first
    reading of the clock. *)
Definition saved : JsVal := object [
  ("accessToken", JStr "at");
  ("accessTokenExpiresAt", JDate (Some 4600000));
  ("client", c1);
  ("user", u1)
].

(** The first exchange of the code. *)
Definition first_exchange : Outcome JsVal * World (list string) :=
  TokenHandler.handle env token_handler exchange world.

Definition issued : JsVal :=
  match first_exchange.1 with Ok data => data | Throw _ => JUndefined end.

(** The world of a later request: the store that the first exchange left,
    a fresh response and an empty log. *)
Definition replay_world : World (list string) :=
  mkWorld (store first_exchange.2) fresh_response [] 0 0.

End Fixture.

(** ** More about logs *)

(** Every call of a log is a call of one of the methods [ms]. *)
Definition only (ms : list Model.Method) (tr : list Call) : Prop :=
  Forall (λ c, call_method c ∈ ms) tr.

(** An outcome that is no error outside the taxonomy, unless a call of the
    log threw that error. *)
Definition model_fault {A : Type} (r : Outcome A) (tr : list Call) : Prop :=
  ∀ msg, r = Throw (Foreign msg) →
    ∃ c, c ∈ tr ∧ call_result c = Throw (Foreign msg).

(** What the authorization code grant has checked of a code, for the
    request and the client, at the reading [today] of the clock, when it
    goes on to revoke it. *)
Definition acceptable_code (E : Externals) (request : Request)
    (client : JsVal) (today : Z) (code : JsVal) : Prop :=
  truthy code = true ∧
  truthy (get_prop code "client") = true ∧
  truthy (get_prop code "user") = true ∧
  strict_eq (get_prop (get_prop code "client") "id") (get_prop client "id")
    = true ∧
  is_date (get_prop code "expiresAt") = true ∧
  date_lt (date_value (get_prop code "expiresAt")) (Some today) = false ∧
  (truthy (get_prop code "redirectUri") = true →
     is_uri E (get_prop code "redirectUri") = true ∧
     strict_eq
       (field (field_or (body request !! "redirect_uri")
                 (query request !! "redirect_uri")))
       (get_prop code "redirectUri") = true).

(** What the refresh token grant has checked of a refresh token when it
    goes on to revoke it or to save a token for it. *)
Definition acceptable_refresh_token (client : JsVal) (today : Z)
    (token : JsVal) : Prop :=
  truthy token = true ∧
  truthy (get_prop token "client") = true ∧
  truthy (get_prop token "user") = true ∧
  strict_eq (get_prop (get_prop token "client") "id") (get_prop client "id")
    = true ∧
  (truthy (get_prop token "refreshTokenExpiresAt") = true →
     is_date (get_prop token "refreshTokenExpiresAt") = true ∧
     date_lt (date_value (get_prop token "refreshTokenExpiresAt")) (Some today)
       = false).

(** What a grant type does with the scope it is asked for, in the log [tr]
    of a run that ends in [r]: the token it saves has the scope asked for
    when the model has no [validateScope], and otherwise the truthy scope
    that [validateScope] returned; after a falsy result of [validateScope]
    the run fails and no token is saved. *)
Definition scope_checked {S A : Type} (this : AbstractGrantType.t S)
    (scope : JsVal) (r : Outcome A) (tr : list Call) : Prop :=
  (∀ c, c ∈ tr → call_method c = Model.saveToken →
     ∃ props client user sc,
       call_args c = [JObj props; client; user] ∧
       props !! "scope" = Some sc ∧
       if Model.lacks (AbstractGrantType.model this) Model.validateScope
       then sc = scope
       else returned Model.validateScope sc tr ∧ truthy sc = true) ∧
  (∀ c, c ∈ tr → returned_falsy Model.validateScope c →
     never Model.saveToken tr ∧ ∃ t, r = Throw t).

(** The tokens of a saved token object are values that the generators of
    the grant type returned. *)
Definition access_token_generated {S : Type} (E : Externals)
    (this : AbstractGrantType.t S) (client user scope : JsVal)
    (props : gmap string JsVal) : Prop :=
  ∃ v w1 w2,
    props !! "accessToken" = Some v ∧
    AbstractGrantType.generateAccessToken E this client user scope w1
      = (Ok v, w2).

Definition refresh_token_generated {S : Type} (E : Externals)
    (this : AbstractGrantType.t S) (client user scope : JsVal)
    (props : gmap string JsVal) : Prop :=
  ∃ v w1 w2,
    props !! "refreshToken" = Some v ∧
    AbstractGrantType.generateRefreshToken E this client user scope w1
      = (Ok v, w2).


(** ** The server

    An options object, of the server or of one call: a key that the object
    does not have is [None]; a key that it has holds a value, which can be
    [undefined], or, for the model and the map of the grant types that need
    no client authentication, falsy ([None] inside). *)

Module Server.
Section Defs.

Context {S : Type} (E : Externals).

Record Options : Type := mkOptions {
  accessTokenLifetime : option JsVal;
  model : option (option (Model.t S));
  refreshTokenLifetime : option JsVal;
  extendedGrantTypes : option (gmap string (TokenHandler.GrantClass S));
  allowExtendedTokenAttributes : option JsVal;
  requireClientAuthentication : option (option (gmap string JsVal));
  alwaysIssueNewRefreshToken : option JsVal
}.

(** [undefined], or the object without a key. *)
Definition no_options : Options :=
  mkOptions None None None None None None None.

(** [b.k] when [b] has the key [k], else [a.k]. *)
Definition later {A : Type} (a b : option A) : option A :=
  match b with Some v => Some v | None => a end.

(** [{ ...a, ...b }] *)
Definition spread (a b : Options) : Options :=
  mkOptions
    (later (accessTokenLifetime a) (accessTokenLifetime b))
    (later (model a) (model b))
    (later (refreshTokenLifetime a) (refreshTokenLifetime b))
    (later (extendedGrantTypes a) (extendedGrantTypes b))
    (later (allowExtendedTokenAttributes a) (allowExtendedTokenAttributes b))
    (later (requireClientAuthentication a) (requireClientAuthentication b))
    (later (alwaysIssueNewRefreshToken a) (alwaysIssueNewRefreshToken b)).

Record t : Type := mk { options : Options }.

Definition new (options : Options) : Outcome t :=
  match model options with
  | Some (Some _) => Ok (mk options)
  | _ => Throw (OAuth (InvalidArgumentException "Missing parameter: `model`"))
  end.

(** The defaults of [token]: one hour and two weeks. *)
Definition token_defaults : Options :=
  mkOptions (Some (JNum (60 * 60))) None (Some (JNum (60 * 60 * 24 * 14)))
    None (Some (JBool false)) (Some (Some ∅)) None.

(** The options [token] constructs the handler from, as the constructor
    reads them. *)
Definition token_options (this : t) (given : Options)
  : TokenHandler.Options S :=
  let opts := spread (spread token_defaults (options this)) given in
  TokenHandler.mkOptions
    (default JUndefined (accessTokenLifetime opts))
    (mjoin (model opts))
    (default JUndefined (refreshTokenLifetime opts))
    (default ∅ (extendedGrantTypes opts))
    (default JUndefined (allowExtendedTokenAttributes opts))
    (mjoin (requireClientAuthentication opts))
    (default JUndefined (alwaysIssueNewRefreshToken opts)).

Definition token (this : t) (request : Request) (given : Options)
  : M S JsVal :=
  handler ← await (TokenHandler.new (token_options this given));
  TokenHandler.handle E handler request.

End Defs.

Arguments Options S : clear implicits.
Arguments t S : clear implicits.

End Server.

(** ** More requests, and a model that fails *)

Module Cases.

Import Fixture.

(** The model of the fixture with a [getUser] that throws an error of its
    own. *)
Definition down : Model.t (list string) := λ m,
  match m with
  | Model.getUser => Some (λ _ s, (Throw (Foreign "connection lost"), s))
  | _ => model m
  end.

Definition grant_options (m : Model.t (list string))
  : AbstractGrantType.Options (list string) :=
  AbstractGrantType.mkOptions (JNum 3600) (Some m) (JNum 1209600) (JBool true).

(** A password request of the user [alice]. *)
Definition login : Request :=
  mkRequest "POST" form_headers
    (list_to_map [
       ("grant_type", "password");
       ("username", "alice");
       ("password", "secret");
       ("client_id", "c1");
       ("client_secret", "s1");
       ("scope", "read")])
    ∅.


(** The same request without a state. *)
Definition approve_without_state : Request :=
  mkRequest "GET" ∅ ∅
    (list_to_map [
       ("client_id", "c1");
       ("response_type", "code");
       ("redirect_uri", "https://x.test/cb");
       ("scope", "read")]).

(** The same request for a client that the model does not know. *)
Definition approve_unknown : Request :=
  mkRequest "GET" ∅ ∅
    (list_to_map [
       ("client_id", "c9");
       ("response_type", "code");
       ("redirect_uri", "https://x.test/cb");
       ("state", "xyz")]).

(** A server with the model of the fixture and no other option. *)
Definition server : Server.t (list string) :=
  Server.mk
    (Server.mkOptions None (Some (Some model)) None None None None None).

(** Options of one call that name a lifetime and leave it undefined. *)
Definition undefined_lifetime : Server.Options (list string) :=
  Server.mkOptions (Some JUndefined) None None None None None None.

End Cases.

(** * Properties *)

(** ** Rules for [wp] *)

Section Rules.

Context {S : Type}.

Implicit Types w : World S.

Lemma wp_ret {A : Type} (a : A) (Q : Outcome A → World S → Prop) w :
  Q (Ok a) w → wp (mret a) Q w.
Proof. exact id. Qed.

Lemma wp_throw {A : Type} (t : Thrown) (Q : Outcome A → World S → Prop) w :
  Q (Throw t) w → wp (throw t) Q w.
Proof. exact id. Qed.

Lemma wp_raise {A : Type} (e : OAuthException) (Q : Outcome A → World S → Prop) w :
  Q (Throw (OAuth e)) w → wp (raise e) Q w.
Proof. exact id. Qed.

Lemma wp_bind {A B : Type} (m : M S A) (k : A → M S B)
    (Q : Outcome B → World S → Prop) w :
  wp m (λ r w', match r with
                | Ok a => wp (k a) Q w'
                | Throw t => Q (Throw t) w'
                end) w →
  wp (m ≫= k) Q w.
Proof.
  unfold wp, mbind, M_bind, bind. destruct (m w) as [[a|t] w']; exact id.
Qed.

Lemma wp_throw_if (c : bool) (e : OAuthException)
    (Q : Outcome unit → World S → Prop) w :
  (c = true → Q (Throw (OAuth e)) w) →
  (c = false → Q (Ok tt) w) →
  wp (throw_if c e) Q w.
Proof. destruct c; unfold wp; simpl; auto. Qed.

Lemma wp_call (model : Model.t S) (m : Model.Method) (args : list JsVal)
    (Q : Outcome JsVal → World S → Prop) w :
  (model m = None → Q (Throw (Foreign "TypeError: not a function")) w) →
  (∀ f r s', model m = Some f → f args (store w) = (r, s') →
     Q r (mkWorld s' (response w) (calls w ++ [mkCall m args r])
            (ticks w) (draws w))) →
  wp (call model m args) Q w.
Proof.
  intros Hnone Hsome. unfold wp, call.
  destruct (model m) as [f|]; [|by apply Hnone].
  destruct (f args (store w)) as [r s'] eqn:Hf. by apply (Hsome f).
Qed.

Lemma wp_now (E : Externals) (Q : Outcome Z → World S → Prop) w :
  Q (Ok (clock E (ticks w)))
    (mkWorld (store w) (response w) (calls w) (Datatypes.S (ticks w)) (draws w)) →
  wp (now E) Q w.
Proof. exact id. Qed.

Lemma wp_random (E : Externals) (Q : Outcome JsVal → World S → Prop) w :
  Q (Ok (JStr (random_token E (draws w))))
    (mkWorld (store w) (response w) (calls w) (ticks w) (Datatypes.S (draws w))) →
  wp (GenerateRandomToken E) Q w.
Proof. exact id. Qed.

Lemma wp_update (f : Response → Response) (Q : Outcome unit → World S → Prop) w :
  Q (Ok tt) (mkWorld (store w) (f (response w)) (calls w) (ticks w) (draws w)) →
  wp (update_response f) Q w.
Proof. exact id. Qed.

Lemma wp_promise {A : Type} (m : M S A) (Q : Outcome (Outcome A) → World S → Prop) w :
  wp m (λ r w', Q (Ok r) w') w → wp (promise m) Q w.
Proof. unfold wp, promise. by destruct (m w). Qed.

Lemma wp_await {A : Type} (r : Outcome A) (Q : Outcome A → World S → Prop) w :
  Q r w → wp (await r) Q w.
Proof. exact id. Qed.

Lemma wp_try_catch {A : Type} (m : M S A) (h : Thrown → M S A)
    (Q : Outcome A → World S → Prop) w :
  wp m (λ r w', match r with
                | Ok a => Q (Ok a) w'
                | Throw t => wp (h t) Q w'
                end) w →
  wp (try_catch m h) Q w.
Proof.
  unfold wp, try_catch. destruct (m w) as [[a|t] w']; exact id.
Qed.

Lemma wp_mono {A : Type} (m : M S A) (Q Q' : Outcome A → World S → Prop) w :
  wp m Q w → (∀ r w', Q r w' → Q' r w') → wp m Q' w.
Proof. unfold wp. auto. Qed.

Lemma wp_run {A : Type} (m : M S A) (Q : Outcome A → World S → Prop) w :
  (∀ r w', m w = (r, w') → Q r w') → wp m Q w.
Proof. unfold wp. intros H. apply H. by destruct (m w). Qed.

Lemma wp_elim {A : Type} (m : M S A) (Q : Outcome A → World S → Prop) w r w' :
  wp m Q w → m w = (r, w') → Q r w'.
Proof. unfold wp. intros H Heq. by rewrite Heq in H. Qed.

(** Using what is known of the calls of [m] for a step of a run. *)
Lemma wp_use {A : Type} (m : M S A) (Φ : Outcome A → list Call → Prop)
    (Q : Outcome A → World S → Prop) w :
  (∀ w0, wp m (λ r w', ∃ tr, extends w0 w' tr ∧ Φ r tr) w0) →
  (∀ r w' tr, m w = (r, w') → extends w w' tr → Φ r tr → Q r w') →
  wp m Q w.
Proof.
  intros Hm HQ. apply wp_run. intros r w' Hrun.
  destruct (wp_elim _ _ _ _ _ (Hm w) Hrun) as (tr & Hext & HΦ). eauto.
Qed.

Lemma wp_equation {A : Type} (m : M S A) w r w' :
  wp m (λ r0 w0, r0 = r ∧ w0 = w') w → m w = (r, w').
Proof. unfold wp. destruct (m w) as [r0 w0]. simpl. by intros [-> ->]. Qed.

End Rules.

(** One step of a run, by the rule of the construct at its head. *)
Ltac wp_step :=
  lazymatch goal with
  | |- wp (mbind _ _) _ _ => apply wp_bind
  | |- wp (mret _) _ _ => apply wp_ret
  | |- wp (throw_if _ _) _ _ => apply wp_throw_if; intros ?
  | |- wp (raise _) _ _ => apply wp_raise
  | |- wp (throw _) _ _ => apply wp_throw
  | |- wp (call _ _ _) _ _ => apply wp_call; [intros ? | intros ? [?|?] ? ? ?]
  | |- wp (now _) _ _ => apply wp_now
  | |- wp (GenerateRandomToken _) _ _ => apply wp_random
  | |- wp (update_response _) _ _ => apply wp_update
  | |- wp (promise _) _ _ => apply wp_promise
  | |- wp (await _) _ _ => apply wp_await
  | |- wp (try_catch _ _) _ _ => apply wp_try_catch
  | |- wp (if ?c then _ else _) _ _ => destruct c eqn:?
  | |- wp (match ?x with _ => _ end) _ _ => destruct x eqn:?
  | |- wp (let '(_, _) := ?x in _) _ _ => destruct x eqn:?
  end; cbn beta iota.

Ltac wp_steps := repeat wp_step.

(** ** The log of model calls *)

Section Log.

Context {S : Type}.

Lemma extends_refl (w : World S) : extends w w [].
Proof. unfold extends. by rewrite app_nil_r. Qed.

Lemma extends_trans (w1 w2 w3 : World S) (tr1 tr2 : list Call) :
  extends w1 w2 tr1 → extends w2 w3 tr2 → extends w1 w3 (tr1 ++ tr2).
Proof. unfold extends. intros H1 H2. by rewrite H2, H1, app_assoc. Qed.

Lemma precedes_nil (a b : Model.Method) : precedes a b [].
Proof. intros i c Hi. by rewrite lookup_nil in Hi. Qed.

Lemma precedes_skip (a b : Model.Method) (c : Call) (tr : list Call) :
  call_method c ≠ b → precedes a b tr → precedes a b (c :: tr).
Proof.
  intros Hc Htr [|i] c' Hi Hb; cbn in Hi.
  - by injection Hi as <-.
  - destruct (Htr i c' Hi Hb) as (j & c'' & Hj & Hc'' & Ha).
    exists (Datatypes.S j), c''. split_and!; [lia|done..].
Qed.

Lemma precedes_after (a b : Model.Method) (c : Call) (tr : list Call) :
  call_method c = a → a ≠ b → precedes a b (c :: tr).
Proof.
  intros Hc Hab [|i] c' Hi Hb; cbn in Hi.
  - injection Hi as <-. congruence.
  - exists 0%nat, c. split_and!; [lia|done..].
Qed.

Lemma never_saving (m : Model.Method) (client user : JsVal)
    (P : gmap string JsVal → Prop) (tr : list Call) :
  m ∉ [Model.validateScope; Model.generateAccessToken;
       Model.generateRefreshToken; Model.saveToken] →
  Forall (saving client user P) tr → never m tr.
Proof.
  intros Hm Htr. unfold never. eapply Forall_impl; [exact Htr|].
  intros c Hc Heq. unfold saving in Hc. rewrite Heq in Hc. apply Hm.
  destruct m; try done; apply list_elem_of_In; cbn; tauto.
Qed.

Lemma saving_method (client user : JsVal) (P : gmap string JsVal → Prop)
    (tr : list Call) (c : Call) :
  Forall (saving client user P) tr → In c tr →
  call_method c ∈ [Model.validateScope; Model.generateAccessToken;
                   Model.generateRefreshToken; Model.saveToken].
Proof.
  intros Htr Hc. apply list_elem_of_In in Hc.
  rewrite Forall_forall in Htr. specialize (Htr c Hc). unfold saving in Htr.
  apply list_elem_of_In. cbn. destruct (call_method c); tauto.
Qed.

Lemma saving_call (client user : JsVal) (P : gmap string JsVal → Prop)
    (tr : list Call) (c : Call) :
  Forall (saving client user P) tr → In c tr →
  call_method c = Model.saveToken →
  ∃ props, call_args c = [JObj props; client; user] ∧ P props.
Proof.
  intros Htr Hc Hm. apply list_elem_of_In in Hc.
  rewrite Forall_forall in Htr. specialize (Htr c Hc). unfold saving in Htr.
  by rewrite Hm in Htr.
Qed.

Lemma returned_first (m : Model.Method) (args : list JsVal) (v : JsVal)
    (tr : list Call) :
  returned m v (mkCall m args (Ok v) :: tr).
Proof. eexists. split; [apply list_elem_of_here|done]. Qed.

Lemma truthy_not_falsy (v : JsVal) : falsy v = false → truthy v = true.
Proof. unfold falsy. by destruct (truthy v). Qed.

End Log.

(** The leaf of a run: the calls it logged, written out. *)
Ltac logged :=
  eexists; split;
  [ unfold extends in *; cbn [calls] in *;
    repeat match goal with
           | H : calls ?w = _ |- context [calls ?w] => rewrite H
           end;
    rewrite <- ?(assoc_L (++)); first [reflexivity | symmetry; apply app_nil_r]
  | cbn [app] ].

(** The order of two methods in a log that is written out. *)
Ltac in_order :=
  repeat first
    [ apply precedes_nil
    | apply precedes_after; [reflexivity | discriminate]
    | apply precedes_skip; [discriminate |] ].

(** The cases of a call that is in a log that is written out. *)
Ltac which_call H :=
  apply list_elem_of_In in H; cbn [In] in H;
  repeat match type of H with
         | _ ∨ _ => destruct H as [H | H]
         end.

(** A call that is in the log of the saving of a token is not a call of a
    method that the saving does not use. *)
Ltac not_saving H Hsave :=
  apply (saving_method _ _ _ _ _ Hsave) in H;
  apply list_elem_of_In in H; cbn [In] in H;
  repeat match type of H with
         | _ ∨ _ => destruct H as [H | H]
         end;
  first [congruence | contradiction].

(** A property of every call of a log that is written out. *)
Ltac each_call :=
  repeat first
    [ apply Forall_nil_2
    | apply Forall_cons_2
    | apply Forall_app_2
    | assumption ].

(** A method that a log that is written out does not call. *)
Ltac never_here :=
  unfold never; each_call;
  first
    [ discriminate
    | match goal with
      | Hs : Forall (saving _ _ _) ?tr |- Forall _ ?tr =>
          let c := fresh "c" in
          let Hc := fresh "Hc" in
          let Hm := fresh "Hm" in
          eapply Forall_impl; [exact Hs|];
          intros c Hc Hm; unfold saving in Hc; by rewrite Hm in Hc
      end ].

(** ** What the grant types share *)

Section Abstract.

Context {S : Type} (E : Externals).

Import AbstractGrantType.

Lemma validateScope_calls (this : t S) (user client scope : JsVal)
    (w : World S) :
  wp (validateScope this user client scope)
    (λ _ w', ∃ tr, extends w w' tr ∧
       Forall (λ c, call_method c = Model.validateScope) tr) w.
Proof.
  unfold validateScope. wp_steps; logged; by each_call.
Qed.

Lemma generateAccessToken_calls (this : t S) (client user scope : JsVal)
    (w : World S) :
  wp (generateAccessToken E this client user scope)
    (λ _ w', ∃ tr, extends w w' tr ∧
       Forall (λ c, call_method c = Model.generateAccessToken) tr) w.
Proof.
  unfold generateAccessToken. wp_steps; logged; by each_call.
Qed.

Lemma generateRefreshToken_calls (this : t S) (client user scope : JsVal)
    (w : World S) :
  wp (generateRefreshToken E this client user scope)
    (λ _ w', ∃ tr, extends w w' tr ∧
       Forall (λ c, call_method c = Model.generateRefreshToken) tr) w.
Proof.
  unfold generateRefreshToken. wp_steps; logged; by each_call.
Qed.

Lemma saving_generator (client user : JsVal) (P : gmap string JsVal → Prop)
    (m : Model.Method) (tr : list Call) :
  m ∈ [Model.validateScope; Model.generateAccessToken;
       Model.generateRefreshToken] →
  Forall (λ c, call_method c = m) tr → Forall (saving client user P) tr.
Proof.
  intros Hm Htr. eapply Forall_impl; [exact Htr|].
  intros c Hc. unfold saving. rewrite Hc.
  apply list_elem_of_In in Hm. cbn in Hm.
  by destruct Hm as [<- | [<- | [<- | []]]].
Qed.

End Abstract.

(** ** The authorization code grant *)

Section AuthorizationCode.

Context {S : Type} (E : Externals).

Import AbstractGrantType AuthorizationCodeGrantType.

(** While the token is saved, the model is called for the scope and the two
    tokens at most, and then for [saveToken], with a token that carries the
    authorization code. *)
Lemma saveToken_calls (this : t S) (user client code scope : JsVal)
    (w : World S) :
  wp (saveToken E this user client code scope)
    (λ _ w', ∃ tr, extends w w' tr ∧
       Forall (saving client user
                 (λ props, props !! "authorizationCode" = Some code)) tr) w.
Proof.
  unfold saveToken, getAccessTokenExpiresAt, getRefreshTokenExpiresAt, object.
  wp_step. wp_step.
  apply (wp_use _ _ _ _ (validateScope_calls this user client scope)).
  intros r1 w1 tr1 _ H1 F1. wp_step. wp_step.
  apply (wp_use _ _ _ _ (generateAccessToken_calls E this client user scope)).
  intros r2 w2 tr2 _ H2 F2. wp_step. wp_step.
  apply (wp_use _ _ _ _ (generateRefreshToken_calls E this client user scope)).
  intros r3 w3 tr3 _ H3 F3.
  eapply (saving_generator client user
            (λ props, props !! "authorizationCode" = Some code)) in F1, F2, F3;
    [|apply list_elem_of_In; cbn; tauto..].
  wp_steps.
  all: destruct r1, r2, r3; cbn beta iota; wp_steps.
  all: logged; each_call.
  all: unfold saving; cbn [call_method call_args].
  all: eexists; split; [reflexivity|].
  all: vm_compute; reflexivity.
Qed.

(** C1.  In every run of the authorization code grant, a call of
    [saveToken] comes after a call of [revokeAuthorizationCode]; and when
    [getAuthorizationCode] returns null, or any falsy value, or
    [revokeAuthorizationCode] returns a falsy status, the grant throws
    [invalid_grant] and [saveToken] is not called. *)
Theorem authorization_code_single_use (this : t S) (request : Request)
    (client : JsVal) (w : World S) :
  let run := handle E this request client w in
  ∃ tr, extends w run.2 tr ∧
    precedes Model.revokeAuthorizationCode Model.saveToken tr ∧
    ∀ c, c ∈ tr →
      returned_falsy Model.getAuthorizationCode c
      ∨ returned_falsy Model.revokeAuthorizationCode c →
      run.1 = Throw (OAuth (mkException invalid_grant 400
                              "Invalid grant: authorization code is invalid"))
      ∧ never Model.saveToken tr.
Proof.
  cbn zeta.
  change (wp (handle E this request client)
            (λ r w', ∃ tr, extends w w' tr ∧
               precedes Model.revokeAuthorizationCode Model.saveToken tr ∧
               ∀ c, c ∈ tr →
                 returned_falsy Model.getAuthorizationCode c
                 ∨ returned_falsy Model.revokeAuthorizationCode c →
                 r = Throw (OAuth (mkException invalid_grant 400
                              "Invalid grant: authorization code is invalid"))
                 ∧ never Model.saveToken tr) w).
  unfold handle, getAuthorizationCode, validateRedirectUri,
    revokeAuthorizationCode.
  wp_steps.
  all: try apply (wp_use _ _ _ _ (saveToken_calls this _ client _ _)).
  all: try (intros r w' tr2 _ Hext Hsave).
  all: logged.
  all: split; [in_order|].
  all: intros c Hc [(Hm & v & Hv & Hfalsy) | (Hm & v & Hv & Hfalsy)].
  all: which_call Hc; try subst c; cbn [call_method call_result] in *.
  all: try discriminate; try done.
  all: try (by not_saving Hc Hsave).
  all: injection Hv as ->.
  all: repeat match goal with
              | H : falsy _ = false |- _ => apply truthy_not_falsy in H
              end; try congruence.
  all: split; [reflexivity | never_here].
Qed.

End AuthorizationCode.

(** ** The refresh token grant *)

Section RefreshToken.

Context {S : Type} (E : Externals).

Import AbstractGrantType RefreshTokenGrantType.


(** While the token is saved, the model is called for the two tokens at
    most, and then for [saveToken], with the token of the grant. *)
Lemma refresh_saveToken_calls (this : t S) (user client scope : JsVal)
    (w : World S) :
  wp (saveToken E this user client scope)
    (λ _ w', ∃ tr, extends w w' tr ∧
       Forall (saving client user (refreshed E this client user scope)) tr) w.
Proof.
  unfold saveToken, getAccessTokenExpiresAt, getRefreshTokenExpiresAt, object.
  wp_step. wp_step.
  apply (wp_use _ _ _ _ (generateAccessToken_calls E this client user scope)).
  intros r2 w2 tr2 _ H2 F2. wp_step. wp_step.
  apply (wp_use _ _ _ _ (generateRefreshToken_calls E this client user scope)).
  intros r3 w3 tr3 Hrun H3 F3.
  eapply (saving_generator client user
            (refreshed E this client user scope)) in F2, F3;
    [|apply list_elem_of_In; cbn; tauto..].
  wp_steps.
  all: destruct r2, r3; cbn beta iota; wp_steps.
  all: logged; each_call.
  all: unfold saving, refreshed; cbn [call_method call_args].
  all: destruct (keeps_refresh_token this); cbn [negb set_prop].
  all: eexists; split; [reflexivity|].
  all: split; [vm_compute; reflexivity|].
  all: try (split; vm_compute; reflexivity).
  all: split; [vm_compute; eauto|].
  all: eexists _, _, _; split; [|exact Hrun]; vm_compute; reflexivity.
Qed.



End RefreshToken.

(** ** The token endpoint *)

Section TokenEndpoint.

Context {S : Type} (E : Externals).

Import TokenHandler.



(** What [handle] does with a failure of its [try] block. *)
Lemma handle_failure (this : t S) (request : Request) (w w1 : World S)
    (t0 : Thrown) :
  method request = "POST" →
  type_is E request "application/x-www-form-urlencoded" = true →
  issue E this request w = (Throw t0, w1) →
  handle E this request w =
    (Throw (OAuth (as_oauth t0)),
     with_response
       (λ r, set_status (exc_code (as_oauth t0))
               (set_body (error_body (as_oauth t0)) r)) w1).
Proof.
  intros Hm Ht Hrun. unfold handle, updateErrorResponse.
  rewrite Hm, Ht.
  cbv [mbind mret M_bind M_ret bind ret throw raise throw_if try_catch
         update_response negb String.eqb Ascii.eqb Bool.eqb].
  by rewrite Hrun.
Qed.

Lemma handle_success (this : t S) (request : Request) (w w1 : World S)
    (data : JsVal) :
  method request = "POST" →
  type_is E request "application/x-www-form-urlencoded" = true →
  issue E this request w = (Ok data, w1) →
  handle E this request w = (Ok data, w1).
Proof.
  intros Hm Ht Hrun. unfold handle. rewrite Hm, Ht.
  cbv [mbind mret M_bind M_ret bind ret throw raise throw_if try_catch
         negb String.eqb Ascii.eqb Bool.eqb].
  by rewrite Hrun.
Qed.

(** C4, as amended.  Once the request is a POST of a form, every failure
    of [handle] is a failure of its [try] block: the value thrown is
    rethrown when it is of the taxonomy and as [server_error] with code 503
    otherwise, the body of the response is set to the name and the message
    of the error and its status to the code of the error.  A request that
    is not a POST, or not a form, is refused with [invalid_request] before
    the [try] block, and the response is left as it was. *)
Theorem token_failure_surface (this : t S) (request : Request) (w : World S) :
  let form := type_is E request "application/x-www-form-urlencoded" in
  (method request = "POST" → form = true →
     ∀ t w', handle E this request w = (Throw t, w') →
       ∃ t0 w1 e,
         issue E this request w = (Throw t0, w1) ∧
         t = OAuth e ∧
         (∀ e0, t0 = OAuth e0 → e = e0) ∧
         (∀ msg, t0 = Foreign msg → e = mkException server_error 503 msg) ∧
         resp_body (response w') = error_body e ∧
         status (response w') = exc_code e ∧
         error_body e = JObj {[ "error" := JStr (exc_name e);
                                "error_description" := JStr (exc_message e) ]}) ∧
  (method request ≠ "POST" →
     handle E this request w =
       (Throw (OAuth (mkException invalid_request 400
                        "Invalid request: method must be POST")), w)) ∧
  (method request = "POST" → form = false →
     handle E this request w =
       (Throw (OAuth (mkException invalid_request 400
          "Invalid request: content must be application/x-www-form-urlencoded")),
        w)).
Proof.
  cbn zeta. split_and!.
  - intros Hm Ht t w' Hrun.
    destruct (issue E this request w) as [[data|t0] w1] eqn:Hissue.
    + rewrite (handle_success _ _ _ _ _ Hm Ht Hissue) in Hrun. done.
    + rewrite (handle_failure _ _ _ _ _ Hm Ht Hissue) in Hrun.
      injection Hrun as <- <-.
      exists t0, w1, (as_oauth t0). split_and!; try done.
      * by intros e0 ->.
      * by intros msg ->.
  - intros Hm. unfold handle.
    apply String.eqb_neq in Hm. rewrite Hm. done.
  - intros Hm Ht. unfold handle. rewrite Hm, Ht. done.
Qed.

End TokenEndpoint.

(** ** Grant dispatch *)

Section Dispatch.

Context {S : Type} (E : Externals).

Import TokenHandler.



End Dispatch.

(** ** Client authentication per grant type *)

Section ClientAuthentication.

Context {S : Type}.

Import TokenHandler.

Lemma new_requireClientAuthentication (options : Options S) (this : t S) :
  new options = Ok this →
  requireClientAuthentication this =
    default ∅ (opt_requireClientAuthentication options).
Proof.
  unfold new. intros H.
  destruct (falsy _); [done|]. destruct (opt_model options); [|done].
  destruct (falsy _); [done|]. destruct (Model.lacks _ _); [done|].
  by injection H as <-.
Qed.

Lemma has_keys_empty (m : gmap string JsVal) :
  has_keys (JObj m) = false ↔ m = ∅.
Proof.
  cbn [has_keys]. rewrite negb_false_iff, Nat.eqb_eq. apply map_size_empty_iff.
Qed.

(** C8.  With the option [requireClientAuthentication] left out or empty,
    every grant type requires client authentication; with entries in it, a
    grant type without an entry still requires it, an entry decides for its
    grant type, and the requirement is off only where an entry turns it
    off. *)
Theorem client_authentication_required (options : Options S) (this : t S)
    (grantType : option string) :
  new options = Ok this →
  let entries := default ∅ (opt_requireClientAuthentication options) in
  let required := isClientAuthenticationRequired this grantType in
  (entries = ∅ → required = JBool true) ∧
  (entries !! property_key grantType = None → required = JBool true) ∧
  (∀ v, entries !! property_key grantType = Some v → v ≠ JUndefined →
     required = v) ∧
  (truthy required = false →
     ∃ v, entries !! property_key grantType = Some v ∧ truthy v = false).
Proof.
  intros Hnew. cbn zeta.
  unfold isClientAuthenticationRequired.
  rewrite (new_requireClientAuthentication _ _ Hnew).
  set (entries := default ∅ _).
  repeat split.
  - intros ->. by rewrite (proj2 (has_keys_empty ∅)).
  - intros Hk. destruct (has_keys _); [|done].
    cbn [get_prop]. by rewrite Hk.
  - intros v Hk Hv. destruct (has_keys _) eqn:Hkeys.
    + cbn [get_prop]. rewrite Hk. cbn. by destruct v.
    + apply has_keys_empty in Hkeys. by rewrite Hkeys in Hk.
  - destruct (has_keys _); [|done].
    cbn [get_prop]. destruct (entries !! _) as [v|]; [|done].
    cbn. destruct (is_defined v) eqn:Hd; [|done]. eauto.
Qed.

End ClientAuthentication.

(** ** The scope of a token request *)

Section Scope.

Context {S : Type} (E : Externals).

Import AbstractGrantType.

(** C9.  A [scope] of the request body that is not NQSCHAR makes
    [getScope] throw [invalid_argument] with code 500, and so do the
    password and the client credentials grants, before any call of the
    model; the error is not [invalid_scope] and its code is not 400. *)
Theorem malformed_scope_is_invalid_argument (this : t S) (request : Request)
    (client : JsVal) (w : World S) :
  is_nqschar E (field (body request !! "scope")) = false →
  truthy client = true →
  let e := InvalidArgumentException "Invalid parameter: `scope`" in
  exc_name e = "invalid_argument" ∧ exc_code e = 500 ∧
  exc_kind e ≠ invalid_scope ∧ exc_code e ≠ 400 ∧
  getScope E request w = (Throw (OAuth e), w) ∧
  PasswordGrantType.handle E this request client w = (Throw (OAuth e), w) ∧
  ClientCredentialsGrantType.handle E this request client w
    = (Throw (OAuth e), w).
Proof.
  intros Hscope Hclient. cbn zeta.
  unfold PasswordGrantType.handle, ClientCredentialsGrantType.handle, getScope.
  unfold falsy. rewrite Hclient.
  cbv [mbind mret M_bind M_ret bind ret throw raise throw_if].
  rewrite Hscope. cbn [negb]. by repeat split.
Qed.

End Scope.

(** ** The token value *)

Section TokenValue.

Context {S : Type} (E : Externals).

Import TokenModel.

(** What the constructor builds from data it accepts. *)
Lemma TokenModel_new_accepts (data allow : JsVal) (w : World S) :
  truthy (get_prop data "accessToken") = true →
  truthy (get_prop data "client") = true →
  truthy (get_prop data "user") = true →
  (truthy (get_prop data "accessTokenExpiresAt")
   && negb (is_date (get_prop data "accessTokenExpiresAt")))%bool = false →
  (truthy (get_prop data "refreshTokenExpiresAt")
   && negb (is_date (get_prop data "refreshTokenExpiresAt")))%bool = false →
  new E data allow w =
    (Ok (mk (get_prop data "accessToken")
           (get_prop data "accessTokenExpiresAt")
           (get_prop data "client")
           (get_prop data "refreshToken")
           (get_prop data "refreshTokenExpiresAt")
           (get_prop data "scope")
           (get_prop data "user")
           (if truthy allow then custom_of data else JUndefined)
           (if truthy (get_prop data "accessTokenExpiresAt")
            then lifetime_of (get_prop data "accessTokenExpiresAt")
                   (clock E (ticks w))
            else JUndefined)),
     if truthy (get_prop data "accessTokenExpiresAt") then tick w else w).
Proof.
  intros Ha Hc Hu He Hr. unfold new, falsy.
  destruct data; try done.
  all: rewrite Ha, Hc, Hu, He, Hr.
  all: cbv [mbind mret M_bind M_ret bind ret throw raise throw_if negb now].
  all: by destruct (truthy (get_prop _ "accessTokenExpiresAt")).
Qed.

(** What data the constructor accepts, when it returns. *)
Lemma TokenModel_new_returns (data allow : JsVal) (w w' : World S) (tm : t) :
  new E data allow w = (Ok tm, w') →
  truthy (get_prop data "accessToken") = true ∧
  truthy (get_prop data "client") = true ∧
  truthy (get_prop data "user") = true ∧
  (truthy (get_prop data "accessTokenExpiresAt")
   && negb (is_date (get_prop data "accessTokenExpiresAt")))%bool = false ∧
  (truthy (get_prop data "refreshTokenExpiresAt")
   && negb (is_date (get_prop data "refreshTokenExpiresAt")))%bool = false.
Proof.
  unfold new, falsy.
  cbv [mbind mret M_bind M_ret bind ret throw raise throw_if now].
  destruct data; try done.
  all: cbn [get_prop truthy negb andb]; try done.
  destruct (truthy (default JUndefined (props !! "accessToken"))); [|done].
  destruct (truthy (default JUndefined (props !! "client"))); [|done].
  destruct (truthy (default JUndefined (props !! "user"))); [|done].
  cbn [negb].
  destruct (_ && _)%bool; [done|].
  destruct (_ && _)%bool; [done|]. done.
Qed.

(** C7.  For a token whose [accessTokenExpiresAt] is a date, the lifetime
    the constructor derives, which is the lifetime handed to the Bearer
    encoding, is the whole number of seconds from the reading of the clock
    to the expiry, rounded down; without an [accessTokenExpiresAt] the
    clock is not read and no lifetime is set. *)
Theorem access_token_lifetime (data allow : JsVal) (w : World S) :
  truthy (get_prop data "accessToken") = true →
  truthy (get_prop data "client") = true →
  truthy (get_prop data "user") = true →
  (truthy (get_prop data "refreshTokenExpiresAt")
   && negb (is_date (get_prop data "refreshTokenExpiresAt")))%bool = false →
  (∀ expiry : Z,
     get_prop data "accessTokenExpiresAt" = JDate (Some expiry) →
     let today := clock E (ticks w) in
     ∃ tm seconds,
       new E data allow w = (Ok tm, tick w) ∧
       accessTokenLifetime tm = JNum seconds ∧
       BearerTokenType.accessTokenLifetime (TokenHandler.getTokenType tm)
         = JNum seconds ∧
       seconds = (expiry - today) / 1000 ∧
       1000 * seconds ≤ expiry - today < 1000 * seconds + 1000) ∧
  (BearerTokenType.missing (get_prop data "accessTokenExpiresAt") = true →
     ∃ tm,
       new E data allow w = (Ok tm, w) ∧
       accessTokenLifetime tm = JUndefined ∧
       BearerTokenType.accessTokenLifetime (TokenHandler.getTokenType tm)
         = JUndefined).
Proof.
  intros Ha Hc Hu Hr. split.
  - intros expiry He today.
    rewrite (TokenModel_new_accepts data allow w Ha Hc Hu) by (by rewrite ?He).
    rewrite He. cbn [truthy lifetime_of].
    eexists _, _. repeat split.
    + subst today. apply Z.mul_div_le. lia.
    + pose proof (Z.mul_succ_div_gt (expiry - today) 1000 eq_refl).
      subst today. lia.
  - intros He.
    rewrite (TokenModel_new_accepts data allow w Ha Hc Hu) by
      (by destruct (get_prop data "accessTokenExpiresAt")).
    destruct (get_prop data "accessTokenExpiresAt"); try done.
    all: by eexists.
Qed.

End TokenValue.

(** ** The authorization endpoint *)

Section AuthorizeEndpoint.

Context {S : Type} (E : Externals).

Import AuthorizeHandler.

(** C3, as amended.  When the query of the request has [allowed] equal to
    the text false, [handle] throws [access_denied], with code 400, before
    the client and the redirect URI are resolved: the model is not called
    and the response is left as it was, without a redirect. *)
Theorem authorize_denied (this : t S) (request : Request) (w : World S) :
  query request !! "allowed" = Some "false" →
  handle E this request w =
    (Throw (OAuth (mkException access_denied 400
                     "Access denied: user denied access to application")), w).
Proof.
  intros Hallowed. unfold handle. rewrite Hallowed.
  by rewrite bool_decide_eq_true_2.
Qed.

End AuthorizeEndpoint.

(** ** Extended attributes of the token response *)

Section ExtendedAttributes.

Context {S : Type} (E : Externals).

Import TokenHandler.

Lemma custom_of_lookup (props : gmap string JsVal) (k : string) (v : JsVal) :
  props !! k = Some v → k ∉ TokenModel.modelAttributes →
  BearerTokenType.own_props (TokenModel.custom_of (JObj props)) !! k = Some v.
Proof.
  intros Hk Hnot. cbn [TokenModel.custom_of BearerTokenType.own_props].
  by apply map_lookup_filter_Some.
Qed.

Lemma valueOf_custom (tt : BearerTokenType.t) (k : string) (v : JsVal) :
  BearerTokenType.own_props (BearerTokenType.customAttributes tt) !! k = Some v →
  BearerTokenType.own_props (BearerTokenType.valueOf tt) !! k = Some v.
Proof.
  intros Hk. unfold BearerTokenType.valueOf.
  cbn [BearerTokenType.own_props]. by apply lookup_union_Some_l.
Qed.

(** The response of a token the handler accepts carries the extended
    attributes of the token. *)
Lemma issue_extended (this : t S) (request : Request) (w : World S)
    (k : string) :
  truthy (allowExtendedTokenAttributes this) = true →
  k ∉ TokenModel.modelAttributes →
  wp (issue E this request)
    (λ r w', ∀ data v, r = Ok data →
       BearerTokenType.own_props data !! k = Some v →
       BearerTokenType.own_props (resp_body (response w')) !! k = Some v) w.
Proof.
  intros Hallow Hnot. unfold issue.
  wp_step. apply wp_run. intros [client|t1] w1 _; [|done].
  wp_step. apply wp_run. intros [data|t2] w2 _; [|done].
  wp_step. apply wp_run. intros [tm|t3] w3 Hnew; [|done].
  destruct (TokenModel_new_returns E _ _ _ _ _ Hnew) as (Ha & Hc & Hu & He & Hr).
  rewrite (TokenModel_new_accepts E _ _ _ Ha Hc Hu He Hr) in Hnew.
  injection Hnew as <- _.
  unfold updateSuccessResponse. wp_steps.
  intros data' v [= <-] Hk. cbn [response resp_body set_body resp_set].
  apply valueOf_custom. cbn [getTokenType BearerTokenType.customAttributes
                               TokenModel.customAttributes].
  rewrite Hallow. destruct data; try done. by apply custom_of_lookup.
Qed.

(** C10.  The name [authorizationCode] is not a model attribute; the
    authorization code grant puts the property on the token it hands to
    [saveToken]; and with [allowExtendedTokenAttributes] on, a token that
    has the property has it copied to [customAttributes] by the
    constructor of the token value and written, by the Bearer encoding, in
    the body of the response of the handler. *)
Theorem authorization_code_is_extended (this : t S)
    (grant : AbstractGrantType.t S) (request : Request)
    (user client code scope data value : JsVal) (w : World S) :
  truthy (allowExtendedTokenAttributes this) = true →
  BearerTokenType.own_props data !! "authorizationCode" = Some value →
  ("authorizationCode" ∉ TokenModel.modelAttributes) ∧
  wp (AuthorizationCodeGrantType.saveToken E grant user client code scope)
    (λ _ w', ∃ tr, extends w w' tr ∧
       Forall (saving client user
                 (λ props, props !! "authorizationCode" = Some code)) tr) w ∧
  (∀ tm w', TokenModel.new E data (allowExtendedTokenAttributes this) w
              = (Ok tm, w') →
     BearerTokenType.own_props (TokenModel.customAttributes tm)
       !! "authorizationCode" = Some value ∧
     BearerTokenType.own_props (BearerTokenType.valueOf (getTokenType tm))
       !! "authorizationCode" = Some value) ∧
  (∀ w', handle E this request w = (Ok data, w') →
     BearerTokenType.own_props (resp_body (response w'))
       !! "authorizationCode" = Some value).
Proof.
  intros Hallow Hdata.
  assert ("authorizationCode" ∉ TokenModel.modelAttributes) as Hnot.
  { intros Hin. apply list_elem_of_In in Hin. cbn in Hin.
    intuition discriminate. }
  split_and!; [done|apply saveToken_calls| |].
  - intros tm w' Hnew.
    destruct (TokenModel_new_returns E _ _ _ _ _ Hnew) as (Ha & Hc & Hu & He & Hr).
    rewrite (TokenModel_new_accepts E _ _ _ Ha Hc Hu He Hr) in Hnew.
    injection Hnew as <- _.
    assert (BearerTokenType.own_props
              (TokenModel.custom_of data) !! "authorizationCode" = Some value)
      as Hcustom.
    { destruct data; try done. by apply custom_of_lookup. }
    split; [|apply valueOf_custom];
      cbn [getTokenType BearerTokenType.customAttributes
             TokenModel.customAttributes];
      rewrite Hallow; exact Hcustom.
  - intros w' Hrun. unfold handle in Hrun.
    revert Hrun.
    cbv [mbind mret M_bind M_ret bind ret throw raise throw_if try_catch].
    destruct (negb (String.eqb (method request) "POST")); [done|].
    destruct (negb (type_is E request _)); [done|].
    pose proof (issue_extended this request w "authorizationCode" Hallow Hnot)
      as Hissue.
    unfold wp in Hissue.
    destruct (issue E this request w) as [[d|t0] w1]; [|done].
    intros [= -> ->]. by eapply Hissue.
Qed.

End ExtendedAttributes.

(** ** The properties on the scenarios *)

Section Scenarios.

Import Fixture.

(** The replay of scenario S2 at the grant: the code is gone, the grant
    throws [invalid_grant] and does not save a token. *)
Lemma authorization_code_single_use_replay :
  (AuthorizationCodeGrantType.handle env (grant JUndefined) exchange c1
     replay_world).1
    = Throw (OAuth (mkException invalid_grant 400
                      "Invalid grant: authorization code is invalid")).
Proof.
  destruct (authorization_code_single_use env (grant JUndefined) exchange c1
              replay_world) as (tr & Hext & _ & Hfalsy).
  unfold extends in Hext. vm_compute in Hext.
  set (c := mkCall Model.getAuthorizationCode [JStr "abc"] (Ok JNull)).
  apply (Hfalsy c).
  - rewrite <- Hext. apply list_elem_of_here.
  - left. split; [reflexivity|]. by exists JNull.
Defined.


(** Scenario S5: the denial is thrown. *)
Lemma authorize_denied_scenario :
  AuthorizeHandler.handle env authorize_handler denied world =
    (Throw (OAuth (mkException access_denied 400
                     "Access denied: user denied access to application")),
     world).
Proof.
  apply (authorize_denied env authorize_handler denied world). reflexivity.
Defined.

(** Scenario S5: there is no redirect.  The response keeps its status 200
    and has no location. *)
Lemma authorize_denied_is_not_redirected :
  (AuthorizeHandler.handle env authorize_handler denied world).1
    = Throw (OAuth (mkException access_denied 400
                      "Access denied: user denied access to application"))
  ∧ status (response
              (AuthorizeHandler.handle env authorize_handler denied world).2)
    ≠ 302
  ∧ resp_headers
      (response (AuthorizeHandler.handle env authorize_handler denied world).2)
      !! "location" = None.
Proof. vm_compute. split_and!; [reflexivity|discriminate|reflexivity]. Qed.

(** The replay of scenario S2 at the handler: the response has the status
    and the body of the error. *)
Lemma token_failure_surface_replay :
  ∃ e w',
    TokenHandler.handle env token_handler exchange replay_world
      = (Throw (OAuth e), w') ∧
    exc_name e = "invalid_grant" ∧
    resp_body (response w') = TokenHandler.error_body e ∧
    status (response w') = exc_code e.
Proof.
  pose (e := mkException invalid_grant 400
               "Invalid grant: authorization code is invalid").
  pose (w' := (TokenHandler.handle env token_handler exchange replay_world).2).
  assert (TokenHandler.handle env token_handler exchange replay_world
            = (Throw (OAuth e), w')) as Hrun
    by (vm_compute; reflexivity).
  destruct (proj1 (token_failure_surface env token_handler exchange replay_world)
              eq_refl eq_refl (OAuth e) w' Hrun)
    as (t0 & w1 & e' & _ & He & _ & _ & Hbody & Hstatus & _).
  injection He as <-.
  exists e, w'. split_and!; [exact Hrun|reflexivity|exact Hbody|exact Hstatus].
Defined.

(** A request that is not a POST: the error is thrown and the response is
    left with its status 200 and its empty body. *)
Lemma token_precondition_leaves_response :
  (TokenHandler.handle env token_handler exchange_by_get world).1
    = Throw (OAuth (mkException invalid_request 400
                      "Invalid request: method must be POST"))
  ∧ status (response
              (TokenHandler.handle env token_handler exchange_by_get world).2)
    ≠ 400
  ∧ resp_body
      (response (TokenHandler.handle env token_handler exchange_by_get world).2)
    ≠ TokenHandler.error_body
        (mkException invalid_request 400 "Invalid request: method must be POST").
Proof.
  vm_compute. split_and!; [reflexivity|discriminate|].
  intros H. injection H as H. discriminate H.
Qed.



(** A token that expires one hour after the clock is read has the lifetime
    3600. *)
Lemma access_token_lifetime_hour :
  ∃ tm,
    TokenModel.new env saved (JBool false) world = (Ok tm, tick world) ∧
    TokenModel.accessTokenLifetime tm = JNum 3600.
Proof.
  destruct (access_token_lifetime env saved (JBool false) world
              eq_refl eq_refl eq_refl eq_refl) as [Hdate _].
  destruct (Hdate 4600000 eq_refl) as (tm & seconds & Hnew & Hl & _ & Hs & _).
  exists tm. split; [exact Hnew|]. rewrite Hl, Hs. reflexivity.
Defined.

(** The password grant without client authentication, the other grants
    with it. *)
Lemma client_authentication_required_password :
  TokenHandler.isClientAuthenticationRequired public_handler (Some "password")
    = JBool false
  ∧ TokenHandler.isClientAuthenticationRequired public_handler
      (Some "refresh_token") = JBool true.
Proof.
  split.
  - destruct (client_authentication_required public_password public_handler
                (Some "password")) as (_ & _ & H & _).
    + reflexivity.
    + apply H; [vm_compute; reflexivity|discriminate].
  - destruct (client_authentication_required public_password public_handler
                (Some "refresh_token")) as (_ & H & _).
    + reflexivity.
    + apply H. vm_compute. reflexivity.
Defined.

(** A scope with a backslash in a password request. *)
Lemma malformed_scope_password :
  PasswordGrantType.handle env (grant JUndefined) bad_scope c1 world =
    (Throw (OAuth (mkException invalid_argument 500
                     "Invalid parameter: `scope`")), world).
Proof.
  destruct (malformed_scope_is_invalid_argument env (grant JUndefined)
              bad_scope c1 world) as (_ & _ & _ & _ & _ & H & _).
  - vm_compute. reflexivity.
  - reflexivity.
  - exact H.
Defined.

(** Scenario S1: the model is called for the client, the code, its
    revocation and the token, once each, and the response is a success. *)
Example exchange_calls :
  call_method <$> calls first_exchange.2 =
    [Model.getClient; Model.getAuthorizationCode;
     Model.revokeAuthorizationCode; Model.saveToken]
  ∧ status (response first_exchange.2) = 200
  ∧ BearerTokenType.own_props (resp_body (response first_exchange.2))
      !! "token_type" = Some (JStr "Bearer")
  ∧ resp_headers (response first_exchange.2) !! "cache-control"
      = Some "no-store".
Proof. vm_compute. by split_and!. Qed.

(** Scenario S1: the clock moves between the expiry and the lifetime, and
    the lifetime of one hour is written as 3599. *)
Example exchange_expires_in :
  BearerTokenType.own_props (resp_body (response first_exchange.2))
    !! "expires_in" = Some (JNum 3599).
Proof. vm_compute. reflexivity. Qed.

(** Scenario S6 at the handler: status 400 and the name of the error. *)
Example unsupported_response :
  status (response
            (TokenHandler.handle env token_handler unsupported world).2) = 400
  ∧ BearerTokenType.own_props
      (resp_body (response
         (TokenHandler.handle env token_handler unsupported world).2))
      !! "error" = Some (JStr "unsupported_grant_type").
Proof. vm_compute. by split_and!. Qed.

(** The malformed scope at the handler: the status of the response is 500
    and the name of the error [invalid_argument]. *)
Example bad_scope_response :
  status (response
            (TokenHandler.handle env token_handler bad_scope world).2) = 500
  ∧ BearerTokenType.own_props
      (resp_body (response
         (TokenHandler.handle env token_handler bad_scope world).2))
      !! "error" = Some (JStr "invalid_argument").
Proof. vm_compute. by split_and!. Qed.

(** Scenario S1: the code is in the body of the response. *)
Lemma authorization_code_is_extended_exchange :
  BearerTokenType.own_props (resp_body (response first_exchange.2))
    !! "authorizationCode" = Some (JStr "abc").
Proof.
  destruct (authorization_code_is_extended env token_handler
              (grant JUndefined) exchange u1 c1 (JStr "abc") JUndefined
              issued (JStr "abc") world) as (_ & _ & _ & H).
  - reflexivity.
  - vm_compute. reflexivity.
  - apply H. vm_compute. reflexivity.
Defined.

End Scenarios.

(** * Further properties *)

(** ** The codes and the refresh tokens that are accepted *)

Section Accepted.

Context {S : Type} (E : Externals).

Import AbstractGrantType.

Lemma acceptable_code_intro (request : Request) (client code : JsVal)
    (today : Z) :
  falsy code = false →
  falsy (get_prop code "client") = false →
  falsy (get_prop code "user") = false →
  negb (strict_eq (get_prop (get_prop code "client") "id")
          (get_prop client "id")) = false →
  negb (is_date (get_prop code "expiresAt")) = false →
  date_lt (date_value (get_prop code "expiresAt")) (Some today) = false →
  (truthy (get_prop code "redirectUri")
   && negb (is_uri E (get_prop code "redirectUri")))%bool = false →
  falsy (get_prop code "redirectUri") = true
  ∨ negb (strict_eq
            (field (field_or (body request !! "redirect_uri")
                      (query request !! "redirect_uri")))
            (get_prop code "redirectUri")) = false →
  acceptable_code E request client today code.
Proof.
  unfold falsy. intros H1 H2 H3 H4 H5 H6 H7 H8.
  rewrite !negb_false_iff in *.
  split_and!; try done. intros Hr. rewrite Hr in H7, H8. cbn in H7, H8.
  rewrite negb_false_iff in H7. by destruct H8.
Qed.

(** X1.  The authorization code grant looks a code up only by the [code]
    of the request body, present and VSCHAR; and it revokes a code, or saves
    a token, only for a code that [getAuthorizationCode] returned with a
    client and a user, for the same client id, with a date of expiry that
    is not before the reading of the clock, and, when the code has a
    redirect URI, with the same redirect URI in the request. *)
Theorem authorization_code_accepted (this : t S) (request : Request)
    (client : JsVal) (w : World S) :
  let run := AuthorizationCodeGrantType.handle E this request client w in
  ∃ tr, extends w run.2 tr ∧
    (∀ c, c ∈ tr → call_method c = Model.getAuthorizationCode →
       present (body request !! "code") = true ∧
       is_vschar E (field (body request !! "code")) = true ∧
       call_args c = [field (body request !! "code")]) ∧
    (∀ c, c ∈ tr →
       call_method c = Model.revokeAuthorizationCode
       ∨ call_method c = Model.saveToken →
       ∃ code,
         returned Model.getAuthorizationCode code tr ∧
         acceptable_code E request client (clock E (ticks w)) code).
Proof.
  cbn zeta.
  change (wp (AuthorizationCodeGrantType.handle E this request client)
    (λ _ w', ∃ tr, extends w w' tr ∧
      (∀ c, c ∈ tr → call_method c = Model.getAuthorizationCode →
         present (body request !! "code") = true ∧
         is_vschar E (field (body request !! "code")) = true ∧
         call_args c = [field (body request !! "code")]) ∧
      (∀ c, c ∈ tr →
         call_method c = Model.revokeAuthorizationCode
         ∨ call_method c = Model.saveToken →
         ∃ code,
           returned Model.getAuthorizationCode code tr ∧
           acceptable_code E request client (clock E (ticks w)) code)) w).
  unfold AuthorizationCodeGrantType.handle,
    AuthorizationCodeGrantType.getAuthorizationCode,
    AuthorizationCodeGrantType.validateRedirectUri,
    AuthorizationCodeGrantType.revokeAuthorizationCode.
  wp_steps.
  all: try apply (wp_use _ _ _ _ (saveToken_calls E this _ client _ _)).
  all: try (intros r w' tr2 _ Hext Hsave).
  all: logged.
  all: split.
  all: intros c Hc Hm; which_call Hc; try subst c.
  all: cbn [call_method call_args] in Hm |- *.
  all: try done; try discriminate; try (destruct Hm; discriminate).
  all: try (by not_saving Hc Hsave).
  all: try (split_and!; [by apply negb_false_iff|by apply negb_false_iff|done]).
  all: eexists; (split; [apply returned_first|]).
  all: eapply acceptable_code_intro; try eassumption; auto.
Qed.

Lemma acceptable_refresh_token_intro (client token : JsVal) (today : Z) :
  falsy token = false →
  falsy (get_prop token "client") = false →
  falsy (get_prop token "user") = false →
  negb (strict_eq (get_prop (get_prop token "client") "id")
          (get_prop client "id")) = false →
  (truthy (get_prop token "refreshTokenExpiresAt")
   && negb (is_date (get_prop token "refreshTokenExpiresAt")))%bool = false →
  truthy (get_prop token "refreshTokenExpiresAt") = false
  ∨ date_lt (date_value (get_prop token "refreshTokenExpiresAt")) (Some today)
    = false →
  acceptable_refresh_token client today token.
Proof.
  unfold falsy. intros H1 H2 H3 H4 H5 H6.
  rewrite !negb_false_iff in *.
  split_and!; try done. intros Hr. rewrite Hr in H5, H6. cbn in H5.
  rewrite negb_false_iff in H5. by destruct H6.
Qed.

(** X2.  The refresh token grant looks a token up only by the
    [refresh_token] of the request body, present and VSCHAR; and it revokes
    a refresh token, or saves a token, only for a refresh token that
    [getRefreshToken] returned with a client and a user, for the same
    client id, and, when it has a date of expiry, with a date that is not
    before the reading of the clock; a refresh token without
    [refreshTokenExpiresAt] does not expire. *)
Theorem refresh_token_accepted (this : t S) (request : Request)
    (client : JsVal) (w : World S) :
  let run := RefreshTokenGrantType.handle E this request client w in
  ∃ tr, extends w run.2 tr ∧
    (∀ c, c ∈ tr → call_method c = Model.getRefreshToken →
       present (body request !! "refresh_token") = true ∧
       is_vschar E (field (body request !! "refresh_token")) = true ∧
       call_args c = [field (body request !! "refresh_token")]) ∧
    (∀ c, c ∈ tr →
       call_method c = Model.revokeToken ∨ call_method c = Model.saveToken →
       ∃ token,
         returned Model.getRefreshToken token tr ∧
         acceptable_refresh_token client (clock E (ticks w)) token).
Proof.
  cbn zeta.
  change (wp (RefreshTokenGrantType.handle E this request client)
    (λ _ w', ∃ tr, extends w w' tr ∧
      (∀ c, c ∈ tr → call_method c = Model.getRefreshToken →
         present (body request !! "refresh_token") = true ∧
         is_vschar E (field (body request !! "refresh_token")) = true ∧
         call_args c = [field (body request !! "refresh_token")]) ∧
      (∀ c, c ∈ tr →
         call_method c = Model.revokeToken ∨ call_method c = Model.saveToken →
         ∃ token,
           returned Model.getRefreshToken token tr ∧
           acceptable_refresh_token client (clock E (ticks w)) token)) w).
  unfold RefreshTokenGrantType.handle, RefreshTokenGrantType.getRefreshToken,
    RefreshTokenGrantType.revokeToken.
  wp_steps.
  all: try apply (wp_use _ _ _ _ (refresh_saveToken_calls E this _ client _)).
  all: try (intros r w' tr2 _ Hext Hsave).
  all: logged.
  all: split.
  all: intros c Hc Hm; which_call Hc; try subst c.
  all: cbn [call_method call_args] in Hm |- *.
  all: try done; try discriminate; try (destruct Hm; discriminate).
  all: try (by not_saving Hc Hsave).
  all: try (split_and!; [by apply negb_false_iff|by apply negb_false_iff|done]).
  all: eexists; (split; [apply returned_first|]).
  all: eapply acceptable_refresh_token_intro; try eassumption.
  all: cbn [ticks] in *.
  all: repeat match goal with
              | H : truthy ?x = _ |- context [truthy ?x] => rewrite H
              end; auto.
Qed.

End Accepted.

(** ** The methods a grant type calls, and the errors it throws *)

Section Footprints.

Context {S : Type} (E : Externals).

Import AbstractGrantType.

Lemma only_mono (ms ms' : list Model.Method) (tr : list Call) :
  only ms tr → (∀ m, m ∈ ms → m ∈ ms') → only ms' tr.
Proof. intros Htr Hsub. eapply Forall_impl; [exact Htr|]. auto. Qed.

Lemma model_fault_mono {A : Type} (r : Outcome A) (tr tr' : list Call) :
  model_fault r tr → (∀ c, c ∈ tr → c ∈ tr') → model_fault r tr'.
Proof.
  intros Hr Hsub msg Hmsg. destruct (Hr msg Hmsg) as (c & Hc & Hres). eauto.
Qed.

Lemma lacks_not_none (model : Model.t S) (m : Model.Method) :
  Model.lacks model m = false → model m = None → False.
Proof. unfold Model.lacks. intros Hl Hn. by rewrite Hn in Hl. Qed.

Lemma scope_checked_nil {A : Type} (this : AbstractGrantType.t S)
    (scope : JsVal) (r : Outcome A) :
  scope_checked this scope r [].
Proof. split; intros c Hc; by apply elem_of_nil in Hc. Qed.

Lemma scope_checked_skip {A : Type} (this : AbstractGrantType.t S)
    (scope : JsVal) (r : Outcome A) (c0 : Call) (tr : list Call) :
  call_method c0 ≠ Model.saveToken →
  call_method c0 ≠ Model.validateScope →
  scope_checked this scope r tr → scope_checked this scope r (c0 :: tr).
Proof.
  intros Hs Hv [H1 H2]. split.
  - intros c Hc Hm. apply elem_of_cons in Hc as [->|Hc]; [done|].
    destruct (H1 c Hc Hm) as (props & client & user & sc & Ha & Hp & Hsc).
    exists props, client, user, sc. split_and!; try done.
    destruct (Model.lacks _ _); [done|]. destruct Hsc as [(c' & Hc' & Hr) Ht].
    split; [|done]. exists c'. split; [by apply list_elem_of_further|done].
  - intros c Hc Hf. apply elem_of_cons in Hc as [->|Hc].
    { by destruct Hf. }
    destruct (H2 c Hc Hf) as [Hn Ht]. split; [|done].
    by apply Forall_cons_2.
Qed.

End Footprints.

(** A call of a method that the model has. *)
Ltac has_method :=
  match goal with
  | Hl : Model.lacks ?md ?m = false, Hn : ?md ?m = None |- _ =>
      destruct (lacks_not_none md m Hl Hn)
  end.

(** The methods of a log that is written out. *)
Ltac only_here :=
  unfold only in *; each_call;
  first
    [ by (cbn [call_method]; apply list_elem_of_In; cbn;
          repeat first [left; reflexivity | right])
    | match goal with
      | H : Forall _ ?tr |- Forall _ ?tr =>
          eapply Forall_impl; [exact H|];
          let c := fresh "c" in
          let Hc := fresh "Hc" in
          intros c Hc; cbn beta in Hc |- *;
          apply list_elem_of_In in Hc; apply list_elem_of_In;
          cbn in Hc |- *; tauto
      end ].

(** The error of a run whose log is written out is an error of the
    taxonomy or the error of one of its calls. *)
Ltac fault_here :=
  let msg := fresh "msg" in
  let Hmsg := fresh "Hmsg" in
  intros msg Hmsg;
  first
    [ discriminate Hmsg
    | match goal with
      | H : model_fault ?r _ |- _ =>
          let c := fresh "c" in
          let Hc := fresh "Hc" in
          let Hres := fresh "Hres" in
          destruct (H msg Hmsg) as (c & Hc & Hres);
          exists c; split; [set_solver | exact Hres]
      end
    | injection Hmsg as ->;
      match goal with
      | |- context [mkCall ?m ?a (Throw (Foreign msg))] =>
          exists (mkCall m a (Throw (Foreign msg)));
          split; [set_solver | reflexivity]
      end ].

(** The cases of a call that is in a log made of parts. *)
Ltac where_call H :=
  repeat first
    [ apply elem_of_app in H as [H|H]
    | apply elem_of_cons in H as [H|H]
    | apply elem_of_nil in H; destruct H ].

(** A call that is in a part of a log is a call of a method of that part. *)
Ltac by_footprint Hc Hm :=
  match goal with
  | O : only _ ?tr |- _ =>
      match type of Hc with
      | _ ∈ tr =>
          unfold only in O; rewrite Forall_forall in O;
          specialize (O _ Hc); cbn beta in O; rewrite Hm in O;
          which_call O; first [discriminate | contradiction]
      end
  end.

(** A method that is in the footprint of no part of a log is never called. *)
Ltac never_only :=
  unfold never, only in *; each_call;
  first
    [ discriminate
    | match goal with
      | O : Forall _ ?tr |- Forall _ ?tr =>
          let c := fresh "c" in
          let H := fresh "H" in
          let Hm := fresh "Hm" in
          eapply Forall_impl; [exact O|];
          intros c H Hm; cbn beta in H; rewrite Hm in H;
          which_call H; first [discriminate | contradiction]
      end ].

(** The calls of the generators and of [validateScope] are calls of the
    saving of a token. *)
Ltac saving_only :=
  match goal with
  | O : only _ ?tr |- Forall (saving _ _ _) ?tr =>
      let c := fresh "c" in
      let H := fresh "H" in
      unfold only in O; eapply Forall_impl; [exact O|];
      intros c H; cbn beta in H; unfold saving;
      which_call H; first [by rewrite <- H | contradiction]
  end.

(** The check of the scope, for a log that starts with other calls. *)
Ltac scope_here :=
  repeat (apply scope_checked_skip; [discriminate|discriminate|]);
  first [assumption | apply scope_checked_nil].

(** What the saving of a token has shown of the errors, when the model
    implements what the grant type requires. *)
Ltac fault_known :=
  repeat match goal with
         | F : ?l = false → _, H : ?l = false |- _ => specialize (F H)
         end.

(** A call of a part of a log is a call of the log. *)
Ltac elem_here :=
  first
    [ assumption
    | apply list_elem_of_here
    | apply elem_of_app; first [left; assumption | right; elem_here]
    | apply list_elem_of_further; elem_here ].

(** A value that a part of a log returned was returned in the log. *)
Ltac returned_here :=
  match goal with
  | R : returned ?m ?v _ |- returned ?m ?v _ =>
      let c := fresh "c" in
      let Hc := fresh "Hc" in
      let Hr := fresh "Hr" in
      destruct R as (c & Hc & Hr); exists c; split; [elem_here | exact Hr]
  end.

Section GrantLogs.

Context {S : Type} (E : Externals).

Import AbstractGrantType.


Lemma generateAccessToken_log (this : t S) (client user scope : JsVal)
    (w : World S) :
  wp (generateAccessToken E this client user scope)
    (λ r w', ∃ tr, extends w w' tr ∧
       only [Model.generateAccessToken] tr ∧ model_fault r tr) w.
Proof.
  unfold generateAccessToken. wp_steps; try has_method; logged.
  all: split; [only_here|fault_here].
Qed.

Lemma generateRefreshToken_log (this : t S) (client user scope : JsVal)
    (w : World S) :
  wp (generateRefreshToken E this client user scope)
    (λ r w', ∃ tr, extends w w' tr ∧
       only [Model.generateRefreshToken] tr ∧ model_fault r tr) w.
Proof.
  unfold generateRefreshToken. wp_steps; try has_method; logged.
  all: split; [only_here|fault_here].
Qed.

(** The scope that [validateScope] hands back. *)
Lemma validateScope_checked (this : t S) (user client scope : JsVal)
    (w : World S) :
  wp (validateScope this user client scope)
    (λ r w', ∃ tr, extends w w' tr ∧
       only [Model.validateScope] tr ∧ model_fault r tr ∧
       (∀ sc, r = Ok sc →
          if Model.lacks (model this) Model.validateScope then sc = scope
          else returned Model.validateScope sc tr ∧ truthy sc = true) ∧
       (∀ c, c ∈ tr → returned_falsy Model.validateScope c → ∃ t, r = Throw t)) w.
Proof.
  unfold validateScope. destruct (Model.lacks _ _) eqn:Hl.
  all: wp_steps; try has_method; logged.
  all: split_and!; [only_here|fault_here| |].
  all: try (intros sc [= <-]); try done.
  all: try (split; [apply returned_first|by apply truthy_not_falsy]).
  all: intros c Hc (Hm & v & Hv & Hfalsy); which_call Hc; try subst c.
  all: cbn [call_result] in Hv; try done; try discriminate.
  all: try (injection Hv as ->); eauto.
  all: repeat match goal with
              | H : falsy _ = false |- _ => apply truthy_not_falsy in H
              end; congruence.
Qed.

(** The calls of the saving of a token, for each grant type: the methods
    called, where an error that is not of the taxonomy comes from, the check
    of the scope, and the token that is saved. *)
Ltac saveToken_log :=
  logged;
  (split_and!; [only_here|intros ?; try has_method; fault_here| |]);
  [ split;
    [ intros c Hc Hm; where_call Hc; first
        [ by_footprint Hc Hm
        | subst c; do 4 eexists; split; [reflexivity|]; split; [reflexivity|];
          match goal with
          | S1 : ∀ sc, Ok ?a = Ok sc → _ |- _ =>
              specialize (S1 _ eq_refl);
              match type of S1 with
              | if ?l then _ else _ =>
                  destruct l; [done|];
                  let R := fresh "R" in
                  destruct S1 as [R ?]; split; [returned_here|done]
              end
          end ]
    | intros c Hc Hf; pose proof (proj1 Hf) as Hm; where_call Hc; first
        [ by_footprint Hc Hm
        | subst c; discriminate
        | match goal with
          | N1 : ∀ c, c ∈ ?tr → _ → ∃ t, Ok _ = Throw t |- _ =>
              destruct (N1 c Hc Hf) as [? ?]; discriminate
          end
        | split; [never_only|eauto] ] ]
  | each_call; first
      [ saving_only
      | unfold saving; cbn [call_method call_args]; eexists;
        split; [reflexivity|]; split_and!; first
          [ reflexivity
          | do 3 eexists; split; [reflexivity|eassumption] ] ] ].

Lemma password_saveToken_log (this : t S) (user client scope : JsVal)
    (w : World S) :
  wp (PasswordGrantType.saveToken E this user client scope)
    (λ r w', ∃ tr, extends w w' tr ∧
       only [Model.validateScope; Model.generateAccessToken;
             Model.generateRefreshToken; Model.saveToken] tr ∧
       (Model.lacks (model this) Model.saveToken = false → model_fault r tr) ∧
       scope_checked this scope r tr ∧
       Forall (saving client user
                 (λ props,
                    access_token_generated E this client user scope props ∧
                    refresh_token_generated E this client user scope props))
         tr) w.
Proof.
  unfold PasswordGrantType.saveToken, getAccessTokenExpiresAt,
    getRefreshTokenExpiresAt, object.
  wp_step. wp_step.
  apply (wp_use _ _ _ _ (validateScope_checked this user client scope)).
  intros r1 w1 tr1 _ H1 (O1 & F1 & S1 & N1). wp_step. wp_step.
  apply (wp_use _ _ _ _ (generateAccessToken_log this client user scope)).
  intros r2 w2 tr2 Hrun2 H2 (O2 & F2). wp_step. wp_step.
  apply (wp_use _ _ _ _ (generateRefreshToken_log this client user scope)).
  intros r3 w3 tr3 Hrun3 H3 (O3 & F3).
  wp_steps.
  all: destruct r1, r2, r3; cbn beta iota; wp_steps.
  all: saveToken_log.
Qed.

Lemma authorization_code_saveToken_log (this : t S)
    (user client code scope : JsVal) (w : World S) :
  wp (AuthorizationCodeGrantType.saveToken E this user client code scope)
    (λ r w', ∃ tr, extends w w' tr ∧
       only [Model.validateScope; Model.generateAccessToken;
             Model.generateRefreshToken; Model.saveToken] tr ∧
       (Model.lacks (model this) Model.saveToken = false → model_fault r tr) ∧
       scope_checked this scope r tr ∧
       Forall (saving client user
                 (λ props,
                    access_token_generated E this client user scope props ∧
                    refresh_token_generated E this client user scope props ∧
                    props !! "authorizationCode" = Some code))
         tr) w.
Proof.
  unfold AuthorizationCodeGrantType.saveToken, getAccessTokenExpiresAt,
    getRefreshTokenExpiresAt, object.
  wp_step. wp_step.
  apply (wp_use _ _ _ _ (validateScope_checked this user client scope)).
  intros r1 w1 tr1 _ H1 (O1 & F1 & S1 & N1). wp_step. wp_step.
  apply (wp_use _ _ _ _ (generateAccessToken_log this client user scope)).
  intros r2 w2 tr2 Hrun2 H2 (O2 & F2). wp_step. wp_step.
  apply (wp_use _ _ _ _ (generateRefreshToken_log this client user scope)).
  intros r3 w3 tr3 Hrun3 H3 (O3 & F3).
  wp_steps.
  all: destruct r1, r2, r3; cbn beta iota; wp_steps.
  all: saveToken_log.
Qed.

Lemma client_credentials_saveToken_log (this : t S)
    (user client scope : JsVal) (w : World S) :
  wp (ClientCredentialsGrantType.saveToken E this user client scope)
    (λ r w', ∃ tr, extends w w' tr ∧
       only [Model.validateScope; Model.generateAccessToken;
             Model.saveToken] tr ∧
       (Model.lacks (model this) Model.saveToken = false → model_fault r tr) ∧
       scope_checked this scope r tr ∧
       Forall (saving client user
                 (λ props,
                    access_token_generated E this client user scope props ∧
                    props !! "refreshToken" = None ∧
                    props !! "refreshTokenExpiresAt" = None))
         tr) w.
Proof.
  unfold ClientCredentialsGrantType.saveToken, getAccessTokenExpiresAt, object.
  wp_step. wp_step.
  apply (wp_use _ _ _ _ (validateScope_checked this user client scope)).
  intros r1 w1 tr1 _ H1 (O1 & F1 & S1 & N1). wp_step. wp_step.
  apply (wp_use _ _ _ _ (generateAccessToken_log this client user scope)).
  intros r2 w2 tr2 Hrun2 H2 (O2 & F2).
  wp_steps.
  all: destruct r1, r2; cbn beta iota; wp_steps.
  all: saveToken_log.
Qed.

Lemma refresh_token_saveToken_log (this : t S) (user client scope : JsVal)
    (w : World S) :
  wp (RefreshTokenGrantType.saveToken E this user client scope)
    (λ r w', ∃ tr, extends w w' tr ∧
       only [Model.generateAccessToken; Model.generateRefreshToken;
             Model.saveToken] tr ∧
       (Model.lacks (model this) Model.saveToken = false → model_fault r tr)) w.
Proof.
  unfold RefreshTokenGrantType.saveToken, getAccessTokenExpiresAt,
    getRefreshTokenExpiresAt, object.
  wp_step. wp_step.
  apply (wp_use _ _ _ _ (generateAccessToken_log this client user scope)).
  intros r2 w2 tr2 Hrun2 H2 (O2 & F2). wp_step. wp_step.
  apply (wp_use _ _ _ _ (generateRefreshToken_log this client user scope)).
  intros r3 w3 tr3 Hrun3 H3 (O3 & F3).
  wp_steps.
  all: destruct r2, r3; cbn beta iota; wp_steps.
  all: logged.
  all: split; [only_here|intros ?; try has_method; fault_here].
Qed.

End GrantLogs.
(** ** The runs of the grant types *)

(** The token that a call of [saveToken] of a log saves. *)
Ltac saved_here Hc Hm SV :=
  let props := fresh "props" in
  let Ha := fresh "Ha" in
  let HP := fresh "HP" in
  apply list_elem_of_In in Hc;
  destruct (saving_call _ _ _ _ _ SV Hc Hm) as (props & Ha & HP).

Section GrantRuns.

Context {S : Type} (E : Externals).

Import AbstractGrantType.

Lemma password_handle_log (this : t S) (request : Request) (client : JsVal)
    (w : World S) :
  wp (PasswordGrantType.handle E this request client)
    (λ r w', ∃ tr, extends w w' tr ∧
       only [Model.getUser; Model.validateScope; Model.generateAccessToken;
             Model.generateRefreshToken; Model.saveToken] tr ∧
       (Model.lacks (model this) Model.getUser = false →
        Model.lacks (model this) Model.saveToken = false →
        model_fault r tr) ∧
       (∀ c, c ∈ tr → call_method c = Model.getUser →
          present (body request !! "username") = true ∧
          present (body request !! "password") = true ∧
          is_uchar E (field (body request !! "username")) = true ∧
          is_uchar E (field (body request !! "password")) = true ∧
          call_args c = [field (body request !! "username");
                         field (body request !! "password")]) ∧
       (∀ c, c ∈ tr → call_method c = Model.saveToken →
          ∃ props user,
            call_args c = [JObj props; client; user] ∧
            returned Model.getUser user tr ∧ truthy user = true ∧
            access_token_generated E this client user
              (field (body request !! "scope")) props ∧
            refresh_token_generated E this client user
              (field (body request !! "scope")) props) ∧
       scope_checked this (field (body request !! "scope")) r tr) w.
Proof.
  unfold PasswordGrantType.handle, PasswordGrantType.getUser, getScope.
  wp_steps.
  all: try apply (wp_use _ _ _ _ (password_saveToken_log E this _ client _)).
  all: try (intros r w' tr2 _ Hext (O & F & SC & SV)).
  all: logged.
  all: split_and!;
    [ only_here
    | intros ? ?; try has_method; fault_known; fault_here
    | intros c Hc Hm; where_call Hc; first
        [ by_footprint Hc Hm
        | subst c; split_and!; first [by apply negb_false_iff | reflexivity] ]
    | intros c Hc Hm; where_call Hc; first
        [ subst c; discriminate
        | saved_here Hc Hm SV; destruct HP as [HP1 HP2];
          do 2 eexists; split_and!;
          [ exact Ha | apply returned_first | by apply truthy_not_falsy
          | exact HP1 | exact HP2 ] ]
    | scope_here ].
Qed.

Lemma client_credentials_handle_log (this : t S) (request : Request)
    (client : JsVal) (w : World S) :
  wp (ClientCredentialsGrantType.handle E this request client)
    (λ r w', ∃ tr, extends w w' tr ∧
       only [Model.getUserFromClient; Model.validateScope;
             Model.generateAccessToken; Model.saveToken] tr ∧
       (Model.lacks (model this) Model.getUserFromClient = false →
        Model.lacks (model this) Model.saveToken = false →
        model_fault r tr) ∧
       (∀ c, c ∈ tr → call_method c = Model.getUserFromClient →
          call_args c = [client]) ∧
       (∀ c, c ∈ tr → call_method c = Model.saveToken →
          ∃ props user,
            call_args c = [JObj props; client; user] ∧
            returned Model.getUserFromClient user tr ∧ truthy user = true ∧
            access_token_generated E this client user
              (field (body request !! "scope")) props ∧
            props !! "refreshToken" = None ∧
            props !! "refreshTokenExpiresAt" = None) ∧
       scope_checked this (field (body request !! "scope")) r tr) w.
Proof.
  unfold ClientCredentialsGrantType.handle,
    ClientCredentialsGrantType.getUserFromClient, getScope.
  wp_steps.
  all: try apply
         (wp_use _ _ _ _ (client_credentials_saveToken_log E this _ client _)).
  all: try (intros r w' tr2 _ Hext (O & F & SC & SV)).
  all: logged.
  all: split_and!;
    [ only_here
    | intros ? ?; try has_method; fault_known; fault_here
    | intros c Hc Hm; where_call Hc; first
        [ by_footprint Hc Hm | subst c; reflexivity ]
    | intros c Hc Hm; where_call Hc; first
        [ subst c; discriminate
        | saved_here Hc Hm SV; destruct HP as (HP1 & HP2 & HP3);
          do 2 eexists; split_and!;
          [ exact Ha | apply returned_first | by apply truthy_not_falsy
          | exact HP1 | exact HP2 | exact HP3 ] ]
    | scope_here ].
Qed.

Lemma authorization_code_handle_log (this : t S) (request : Request)
    (client : JsVal) (w : World S) :
  wp (AuthorizationCodeGrantType.handle E this request client)
    (λ r w', ∃ tr, extends w w' tr ∧
       only [Model.getAuthorizationCode; Model.revokeAuthorizationCode;
             Model.validateScope; Model.generateAccessToken;
             Model.generateRefreshToken; Model.saveToken] tr ∧
       (Model.lacks (model this) Model.getAuthorizationCode = false →
        Model.lacks (model this) Model.revokeAuthorizationCode = false →
        Model.lacks (model this) Model.saveToken = false →
        model_fault r tr) ∧
       (∀ c, c ∈ tr → call_method c = Model.revokeAuthorizationCode →
          ∃ code,
            returned Model.getAuthorizationCode code tr ∧
            call_args c = [code]) ∧
       (∀ c, c ∈ tr → call_method c = Model.saveToken →
          ∃ props code,
            returned Model.getAuthorizationCode code tr ∧
            call_args c = [JObj props; client; get_prop code "user"] ∧
            props !! "authorizationCode"
              = Some (get_prop code "authorizationCode") ∧
            access_token_generated E this client (get_prop code "user")
              (get_prop code "scope") props ∧
            refresh_token_generated E this client (get_prop code "user")
              (get_prop code "scope") props) ∧
       (∀ code, returned Model.getAuthorizationCode code tr →
          scope_checked this (get_prop code "scope") r tr)) w.
Proof.
  unfold AuthorizationCodeGrantType.handle,
    AuthorizationCodeGrantType.getAuthorizationCode,
    AuthorizationCodeGrantType.validateRedirectUri,
    AuthorizationCodeGrantType.revokeAuthorizationCode.
  wp_steps.
  all: try apply
         (wp_use _ _ _ _
            (authorization_code_saveToken_log E this _ client _ _)).
  all: try (intros r w' tr2 _ Hext (O & F & SC & SV)).
  all: logged.
  all: split_and!;
    [ only_here
    | intros ? ? ?; try has_method; fault_known; fault_here
    | intros c Hc Hm; where_call Hc; first
        [ by_footprint Hc Hm
        | subst c; discriminate
        | subst c; eexists; split; [apply returned_first|reflexivity] ]
    | intros c Hc Hm; where_call Hc; first
        [ subst c; discriminate
        | saved_here Hc Hm SV; destruct HP as (HP1 & HP2 & HP3);
          do 2 eexists; split_and!;
          [ apply returned_first | exact Ha | exact HP3
          | exact HP1 | exact HP2 ] ]
    | intros code (c & Hc & Hm & Hr); where_call Hc; first
        [ by_footprint Hc Hm
        | subst c; discriminate
        | subst c; injection Hr as <-; scope_here ] ].
Qed.

Lemma refresh_token_handle_log (this : t S) (request : Request)
    (client : JsVal) (w : World S) :
  wp (RefreshTokenGrantType.handle E this request client)
    (λ r w', ∃ tr, extends w w' tr ∧
       only [Model.getRefreshToken; Model.revokeToken;
             Model.generateAccessToken; Model.generateRefreshToken;
             Model.saveToken] tr ∧
       (Model.lacks (model this) Model.getRefreshToken = false →
        Model.lacks (model this) Model.revokeToken = false →
        Model.lacks (model this) Model.saveToken = false →
        model_fault r tr)) w.
Proof.
  unfold RefreshTokenGrantType.handle, RefreshTokenGrantType.getRefreshToken,
    RefreshTokenGrantType.revokeToken.
  wp_steps.
  all: try apply
         (wp_use _ _ _ _ (refresh_token_saveToken_log E this _ client _)).
  all: try (intros r w' tr2 _ Hext (O & F)).
  all: logged.
  all: split;
    [ only_here | intros ? ? ?; try has_method; fault_known; fault_here ].
Qed.

End GrantRuns.
(** ** What the built-in grant types ask of the model *)

Section BuiltInGrants.

Context {S : Type} (E : Externals).

Import AbstractGrantType.

Lemma run_new {A : Type} (made : Outcome A) (k : A → M S JsVal)
    (w : World S) :
  (this ← await made; k this) w
  = match made with Ok this => k this w | Throw e => (Throw e, w) end.
Proof. by destruct made. Qed.

Lemma built_in_class (name : string) (T : TokenHandler.GrantClass S) :
  TokenHandler.grantTypes !! name = Some T →
  T = TokenHandler.AuthorizationCode ∨ T = TokenHandler.ClientCredentials
  ∨ T = TokenHandler.Password ∨ T = TokenHandler.RefreshToken.
Proof.
  intros H. apply elem_of_list_to_map_2 in H. where_call H.
  all: injection H as _ ->; auto.
Qed.

Lemma require_ok (this : t S) (m : Model.Method) (message : string) (u : unit) :
  require this m message = Ok u → Model.lacks (model this) m = false.
Proof. unfold require. by destruct (Model.lacks _ _). Qed.

(** What a constructor that returned has required of the model. *)
Ltac required H :=
  repeat match type of H with
         | match ?x with _ => _ end = Ok _ =>
             let Hx := fresh "Hreq" in
             destruct x eqn:Hx; [|discriminate H];
             try apply require_ok in Hx
         end;
  injection H as ->.

(** The grant types of the registry of the library do not look a client
    up. *)
Lemma built_in_grant_lookup_free (name : string)
    (T : TokenHandler.GrantClass S) (options : Options S) (request : Request)
    (client : JsVal) (w : World S) :
  TokenHandler.grantTypes !! name = Some T →
  ∃ tr,
    extends w (TokenHandler.run_grant E T options request client w).2 tr ∧
    never Model.getClient tr.
Proof.
  intros HT.
  destruct (built_in_class name T HT) as [-> | [-> | [-> | ->]]].
  all: unfold TokenHandler.run_grant; rewrite run_new.
  - destruct (AuthorizationCodeGrantType.new options) as [this|e].
    + pose proof (authorization_code_handle_log E this request client w) as H.
      unfold wp in H. destruct H as (tr & Hext & O & _).
      exists tr. split; [exact Hext|never_only].
    + exists []. split; [apply extends_refl|apply Forall_nil_2].
  - destruct (ClientCredentialsGrantType.new options) as [this|e].
    + pose proof (client_credentials_handle_log E this request client w) as H.
      unfold wp in H. destruct H as (tr & Hext & O & _).
      exists tr. split; [exact Hext|never_only].
    + exists []. split; [apply extends_refl|apply Forall_nil_2].
  - destruct (PasswordGrantType.new options) as [this|e].
    + pose proof (password_handle_log E this request client w) as H.
      unfold wp in H. destruct H as (tr & Hext & O & _).
      exists tr. split; [exact Hext|never_only].
    + exists []. split; [apply extends_refl|apply Forall_nil_2].
  - destruct (RefreshTokenGrantType.new options) as [this|e].
    + pose proof (refresh_token_handle_log E this request client w) as H.
      unfold wp in H. destruct H as (tr & Hext & O & _).
      exists tr. split; [exact Hext|never_only].
    + exists []. split; [apply extends_refl|apply Forall_nil_2].
Qed.

(** X3.  The model methods that a run of each built-in grant type may call,
    from the construction of the grant type on: the authorization code grant
    calls no other method than [getAuthorizationCode],
    [revokeAuthorizationCode], [validateScope], the two generators and
    [saveToken]; the client credentials grant never generates a refresh
    token; the refresh token grant never validates a scope; and none of
    them looks a client up. *)
Theorem built_in_grant_footprint (options : Options S) (request : Request)
    (client : JsVal) (w : World S) :
  let calls_only T ms :=
    ∃ tr,
      extends w (TokenHandler.run_grant E T options request client w).2 tr ∧
      only ms tr in
  calls_only TokenHandler.AuthorizationCode
    [Model.getAuthorizationCode; Model.revokeAuthorizationCode;
     Model.validateScope; Model.generateAccessToken;
     Model.generateRefreshToken; Model.saveToken] ∧
  calls_only TokenHandler.ClientCredentials
    [Model.getUserFromClient; Model.validateScope;
     Model.generateAccessToken; Model.saveToken] ∧
  calls_only TokenHandler.Password
    [Model.getUser; Model.validateScope; Model.generateAccessToken;
     Model.generateRefreshToken; Model.saveToken] ∧
  calls_only TokenHandler.RefreshToken
    [Model.getRefreshToken; Model.revokeToken; Model.generateAccessToken;
     Model.generateRefreshToken; Model.saveToken].
Proof.
  cbn zeta. unfold TokenHandler.run_grant. rewrite !run_new. split_and!.
  - destruct (AuthorizationCodeGrantType.new options) as [this|e].
    + pose proof (authorization_code_handle_log E this request client w) as H.
      unfold wp in H. destruct H as (tr & Hext & O & _). eauto.
    + exists []. split; [apply extends_refl|apply Forall_nil_2].
  - destruct (ClientCredentialsGrantType.new options) as [this|e].
    + pose proof (client_credentials_handle_log E this request client w) as H.
      unfold wp in H. destruct H as (tr & Hext & O & _). eauto.
    + exists []. split; [apply extends_refl|apply Forall_nil_2].
  - destruct (PasswordGrantType.new options) as [this|e].
    + pose proof (password_handle_log E this request client w) as H.
      unfold wp in H. destruct H as (tr & Hext & O & _). eauto.
    + exists []. split; [apply extends_refl|apply Forall_nil_2].
  - destruct (RefreshTokenGrantType.new options) as [this|e].
    + pose proof (refresh_token_handle_log E this request client w) as H.
      unfold wp in H. destruct H as (tr & Hext & O & _). eauto.
    + exists []. split; [apply extends_refl|apply Forall_nil_2].
Qed.

(** X4.  A built-in grant type fails with an error that is not of the
    taxonomy only when a call of the model, made in that run, threw that
    error: the grant types themselves throw taxonomy errors only, and the
    constructors make sure that the methods that are called without a test
    exist. *)
Theorem built_in_grant_faults (name : string) (T : TokenHandler.GrantClass S)
    (options : Options S) (request : Request) (client : JsVal) (w : World S) :
  TokenHandler.grantTypes !! name = Some T →
  let run := TokenHandler.run_grant E T options request client w in
  ∃ tr, extends w run.2 tr ∧ model_fault run.1 tr.
Proof.
  intros HT. cbn zeta.
  destruct (built_in_class name T HT) as [-> | [-> | [-> | ->]]].
  all: unfold TokenHandler.run_grant; rewrite run_new.
  - destruct (AuthorizationCodeGrantType.new options) as [this|e] eqn:Hnew.
    + unfold AuthorizationCodeGrantType.new in Hnew. required Hnew.
      pose proof (authorization_code_handle_log E this request client w) as H.
      unfold wp in H. destruct H as (tr & Hext & _ & F & _). eauto.
    + exists []. split; [apply extends_refl|].
      unfold AuthorizationCodeGrantType.new, AbstractGrantType.new, require
        in Hnew.
      repeat case_match; simplify_eq; by intros msg.
  - destruct (ClientCredentialsGrantType.new options) as [this|e] eqn:Hnew.
    + unfold ClientCredentialsGrantType.new in Hnew. required Hnew.
      pose proof (client_credentials_handle_log E this request client w) as H.
      unfold wp in H. destruct H as (tr & Hext & _ & F & _). eauto.
    + exists []. split; [apply extends_refl|].
      unfold ClientCredentialsGrantType.new, AbstractGrantType.new, require
        in Hnew.
      repeat case_match; simplify_eq; by intros msg.
  - destruct (PasswordGrantType.new options) as [this|e] eqn:Hnew.
    + unfold PasswordGrantType.new in Hnew. required Hnew.
      pose proof (password_handle_log E this request client w) as H.
      unfold wp in H. destruct H as (tr & Hext & _ & F & _). eauto.
    + exists []. split; [apply extends_refl|].
      unfold PasswordGrantType.new, AbstractGrantType.new, require in Hnew.
      repeat case_match; simplify_eq; by intros msg.
  - destruct (RefreshTokenGrantType.new options) as [this|e] eqn:Hnew.
    + unfold RefreshTokenGrantType.new in Hnew. required Hnew.
      pose proof (refresh_token_handle_log E this request client w) as H.
      unfold wp in H. destruct H as (tr & Hext & _ & F). eauto.
    + exists []. split; [apply extends_refl|].
      unfold RefreshTokenGrantType.new, AbstractGrantType.new, require in Hnew.
      repeat case_match; simplify_eq; by intros msg.
Qed.

(** X5.  The password grant hands to [getUser] the [username] and the
    [password] of the request body, both present and UNICODECHARNOCRLF; and
    it saves a token only for the client it was given and a user that
    [getUser] returned, not falsy, with an access token and a refresh token
    that the generators returned for that client, that user and the scope
    of the request. *)
Theorem password_grant_user (this : t S) (request : Request) (client : JsVal)
    (w : World S) :
  let run := PasswordGrantType.handle E this request client w in
  ∃ tr, extends w run.2 tr ∧
    (∀ c, c ∈ tr → call_method c = Model.getUser →
       present (body request !! "username") = true ∧
       present (body request !! "password") = true ∧
       is_uchar E (field (body request !! "username")) = true ∧
       is_uchar E (field (body request !! "password")) = true ∧
       call_args c = [field (body request !! "username");
                      field (body request !! "password")]) ∧
    (∀ c, c ∈ tr → call_method c = Model.saveToken →
       ∃ props user,
         call_args c = [JObj props; client; user] ∧
         returned Model.getUser user tr ∧ truthy user = true ∧
         access_token_generated E this client user
           (field (body request !! "scope")) props ∧
         refresh_token_generated E this client user
           (field (body request !! "scope")) props).
Proof.
  cbn zeta. pose proof (password_handle_log E this request client w) as H.
  unfold wp in H. destruct H as (tr & Hext & _ & _ & Hu & Hs & _). eauto.
Qed.

(** X6.  The client credentials grant asks [getUserFromClient] for the user
    of the client it was given; it saves a token only for that client and a
    user that [getUserFromClient] returned, not falsy; and the token it
    saves has an access token that the generator returned and neither a
    [refreshToken] nor a [refreshTokenExpiresAt]. *)
Theorem client_credentials_grant_user (this : t S) (request : Request)
    (client : JsVal) (w : World S) :
  let run := ClientCredentialsGrantType.handle E this request client w in
  ∃ tr, extends w run.2 tr ∧
    (∀ c, c ∈ tr → call_method c = Model.getUserFromClient →
       call_args c = [client]) ∧
    (∀ c, c ∈ tr → call_method c = Model.saveToken →
       ∃ props user,
         call_args c = [JObj props; client; user] ∧
         returned Model.getUserFromClient user tr ∧ truthy user = true ∧
         access_token_generated E this client user
           (field (body request !! "scope")) props ∧
         props !! "refreshToken" = None ∧
         props !! "refreshTokenExpiresAt" = None).
Proof.
  cbn zeta.
  pose proof (client_credentials_handle_log E this request client w) as H.
  unfold wp in H. destruct H as (tr & Hext & _ & _ & Hu & Hs & _). eauto.
Qed.

(** X7.  The scope of the tokens that are issued.  The password and the
    client credentials grant take the scope of the request body, the
    authorization code grant the scope of the code that
    [getAuthorizationCode] returned.  The token that is saved carries that
    scope when the model has no [validateScope], and otherwise a value that
    [validateScope] returned, not falsy; and when [validateScope] returns a
    falsy value the grant fails and no token is saved. *)
Theorem issued_scope_checked (this : t S) (request : Request) (client : JsVal)
    (w : World S) :
  (let run := PasswordGrantType.handle E this request client w in
   ∃ tr, extends w run.2 tr ∧
     scope_checked this (field (body request !! "scope")) run.1 tr) ∧
  (let run := ClientCredentialsGrantType.handle E this request client w in
   ∃ tr, extends w run.2 tr ∧
     scope_checked this (field (body request !! "scope")) run.1 tr) ∧
  (let run := AuthorizationCodeGrantType.handle E this request client w in
   ∃ tr, extends w run.2 tr ∧
     ∀ code, returned Model.getAuthorizationCode code tr →
       scope_checked this (get_prop code "scope") run.1 tr).
Proof.
  cbn zeta. split_and!.
  - pose proof (password_handle_log E this request client w) as H.
    unfold wp in H. destruct H as (tr & Hext & _ & _ & _ & _ & H). eauto.
  - pose proof (client_credentials_handle_log E this request client w) as H.
    unfold wp in H. destruct H as (tr & Hext & _ & _ & _ & _ & H). eauto.
  - pose proof (authorization_code_handle_log E this request client w) as H.
    unfold wp in H. destruct H as (tr & Hext & _ & _ & _ & _ & H). eauto.
Qed.

(** X8.  The authorization code grant revokes the code that
    [getAuthorizationCode] returned, as it was returned; and it saves a
    token only for the client it was given and the user of that code, a
    token that carries the [authorizationCode] of the code, with an access
    token and a refresh token that the generators returned for that client,
    that user and the scope of the code. *)
Theorem authorization_code_grant_token (this : t S) (request : Request)
    (client : JsVal) (w : World S) :
  let run := AuthorizationCodeGrantType.handle E this request client w in
  ∃ tr, extends w run.2 tr ∧
    (∀ c, c ∈ tr → call_method c = Model.revokeAuthorizationCode →
       ∃ code,
         returned Model.getAuthorizationCode code tr ∧ call_args c = [code]) ∧
    (∀ c, c ∈ tr → call_method c = Model.saveToken →
       ∃ props code,
         returned Model.getAuthorizationCode code tr ∧
         call_args c = [JObj props; client; get_prop code "user"] ∧
         props !! "authorizationCode"
           = Some (get_prop code "authorizationCode") ∧
         access_token_generated E this client (get_prop code "user")
           (get_prop code "scope") props ∧
         refresh_token_generated E this client (get_prop code "user")
           (get_prop code "scope") props).
Proof.
  cbn zeta.
  pose proof (authorization_code_handle_log E this request client w) as H.
  unfold wp in H. destruct H as (tr & Hext & _ & _ & Hr & Hs & _). eauto.
Qed.

End BuiltInGrants.
(** ** The client of a token request *)

(** A call of a part of a log that calls one method only is a call of that
    method. *)
Ltac the_method Hc Hm :=
  match goal with
  | O : only _ ?tr |- _ =>
      match type of Hc with
      | _ ∈ tr =>
          unfold only in O; rewrite Forall_forall in O;
          specialize (O _ Hc); cbn beta in O;
          which_call O; first [congruence | contradiction]
      end
  end.

(** What the tests that a run has passed say. *)
Ltac passed :=
  unfold falsy in *;
  repeat match goal with
         | H : negb _ = false |- _ => apply negb_false_iff in H
         | H : negb _ = true |- _ => apply negb_true_iff in H
         | H : (_ && _)%bool = true |- _ =>
             apply andb_true_iff in H; destruct H
         | H : (_ || _)%bool = false |- _ =>
             apply orb_false_iff in H; destruct H
         | H : (_ && _)%bool = false |- _ => apply andb_false_iff in H
         | H : (_ || _)%bool = true |- _ => apply orb_true_iff in H
         end.

Section TokenClient.

Context {S : Type} (E : Externals).

Import TokenHandler.

(** The lookup of the client calls [getClient] only, and hands on a client
    that the model returned. *)
Lemma token_getClient_returned (this : t S) (request : Request)
    (w : World S) :
  wp (getClient E this request)
    (λ r w', ∃ tr, extends w w' tr ∧
       only [Model.getClient] tr ∧
       (∀ client, r = Ok client →
          returned Model.getClient client tr ∧ truthy client = true)) w.
Proof.
  unfold getClient, getClientCredentials.
  wp_steps.
  all: logged.
  all: split; [only_here|].
  all: intros client Hr; first
    [ discriminate Hr
    | injection Hr as <-; passed; split; [apply returned_first|done] ].
Qed.

(** X9.  The token endpoint calls [getClient] of the model at most once
    for a request, with a client id that is not empty and VSCHAR and a
    secret that, when there is one, is VSCHAR; there is a secret whenever
    client authentication is required for the grant type; credentials that
    the [Authorization] header holds are used in preference to those of the
    body; and the client that the lookup hands on is one that the model
    returned, not falsy, with an array of [grants]. *)
Theorem token_client_lookup (this : t S) (request : Request) (w : World S) :
  let run := getClient E this request w in
  ∃ tr, extends w run.2 tr ∧
    only [Model.getClient] tr ∧ (length tr ≤ 1)%nat ∧
    (∀ c, c ∈ tr →
       ∃ id secret,
         call_args c = [id; secret] ∧
         truthy id = true ∧ is_vschar E id = true ∧
         (truthy secret = true → is_vschar E secret = true) ∧
         (truthy (isClientAuthenticationRequired this
                    (body request !! "grant_type")) = true →
          truthy secret = true) ∧
         match auth E request with
         | Some (name, pass) => id = JStr name ∧ secret = JStr pass
         | None =>
             id = field (body request !! "client_id") ∧
             (secret = field (body request !! "client_secret")
              ∨ secret = JUndefined)
         end) ∧
    (∀ client, run.1 = Ok client →
       returned Model.getClient client tr ∧ truthy client = true ∧
       is_array (get_prop client "grants") = true).
Proof.
  cbn zeta.
  change (wp (getClient E this request)
    (λ r w', ∃ tr, extends w w' tr ∧
       only [Model.getClient] tr ∧ (length tr ≤ 1)%nat ∧
       (∀ c, c ∈ tr →
          ∃ id secret,
            call_args c = [id; secret] ∧
            truthy id = true ∧ is_vschar E id = true ∧
            (truthy secret = true → is_vschar E secret = true) ∧
            (truthy (isClientAuthenticationRequired this
                       (body request !! "grant_type")) = true →
             truthy secret = true) ∧
            match auth E request with
            | Some (name, pass) => id = JStr name ∧ secret = JStr pass
            | None =>
                id = field (body request !! "client_id") ∧
                (secret = field (body request !! "client_secret")
                 ∨ secret = JUndefined)
            end) ∧
       (∀ client, r = Ok client →
          returned Model.getClient client tr ∧ truthy client = true ∧
          is_array (get_prop client "grants") = true)) w).
  unfold getClient, getClientCredentials.
  wp_steps.
  all: logged.
  all: split_and!; [only_here|cbn; lia| |].
  all: try (intros c Hc; where_call Hc;
            (subst c; do 2 eexists; split; [reflexivity|]; split_and!;
             try (intros Ht; rewrite ?Ht in *; cbn [andb] in *);
             passed; first [done | by auto | by cbn in * ])).
  all: intros client Hr; first
    [ discriminate Hr
    | injection Hr as <-; passed;
      split_and!; [apply returned_first|done|done] ].
Qed.

(** The grant types of the built-in registry do not look a client up, and
    they are run for a client whose grants have the grant type of the
    request. *)
Lemma handleGrantType_log (this : t S) (request : Request) (client : JsVal)
    (w : World S) :
  registry this = grantTypes →
  wp (handleGrantType E this request client)
    (λ _ w', ∃ tr, extends w w' tr ∧
       never Model.getClient tr ∧
       (tr ≠ [] →
        includes (get_prop client "grants")
          (field (body request !! "grant_type")) = true)) w.
Proof.
  intros Hreg. unfold handleGrantType. rewrite Hreg.
  wp_steps.
  all: try (logged; split; [apply Forall_nil_2|done]).
  all: apply wp_run; intros r w' Hrun.
  all: match goal with
       | H : grantTypes !! ?name = Some ?T |- _ =>
           match type of Hrun with
           | run_grant _ _ ?o _ _ _ = _ =>
               destruct (built_in_grant_lookup_free E name T o request client
                           w H) as (tr & Hext & N)
           end
       end.
  all: rewrite Hrun in Hext.
  all: exists tr; split_and!; [exact Hext|exact N|intros _; by passed].
Qed.

(** The constructor of the token value calls no method of the model. *)
Lemma TokenModel_new_log (data allow : JsVal) (w : World S) :
  wp (TokenModel.new E data allow)
    (λ _ w', ∃ tr, extends w w' tr ∧ tr = []) w.
Proof.
  unfold TokenModel.new. destruct data.
  all: wp_steps; by logged.
Qed.

(** X10.  On a token endpoint whose registry is the built-in one, every
    call of the model other than the lookup of the client is made in a run
    where [getClient] has returned a client, not falsy, whose [grants]
    include the grant type of the request: no grant type is run, and no
    token is generated or saved, for a client that is not allowed the grant
    type. *)
Theorem grant_for_authorized_client (this : t S) (request : Request)
    (w : World S) :
  registry this = grantTypes →
  let run := handle E this request w in
  ∃ tr, extends w run.2 tr ∧
    ∀ c, c ∈ tr → call_method c ≠ Model.getClient →
      ∃ client,
        returned Model.getClient client tr ∧ truthy client = true ∧
        includes (get_prop client "grants")
          (field (body request !! "grant_type")) = true.
Proof.
  intros Hreg. cbn zeta.
  change (wp (handle E this request)
    (λ _ w', ∃ tr, extends w w' tr ∧
       ∀ c, c ∈ tr → call_method c ≠ Model.getClient →
         ∃ client,
           returned Model.getClient client tr ∧ truthy client = true ∧
           includes (get_prop client "grants")
             (field (body request !! "grant_type")) = true) w).
  unfold handle, issue, updateSuccessResponse, updateErrorResponse.
  wp_steps.
  1,2: logged; intros c Hc; where_call Hc.
  apply (wp_use _ _ _ _ (token_getClient_returned this request)).
  intros r1 w1 tr1 _ H1 (O1 & R1).
  destruct r1 as [client|e]; wp_steps.
  2: { logged. intros c Hc Hm. where_call Hc. the_method Hc Hm. }
  destruct (R1 client eq_refl) as (Rc & Tc).
  apply (wp_use _ _ _ _
           (λ w0, handleGrantType_log this request client w0 Hreg)).
  intros r2 w2 tr2 _ H2 (N2 & I2).
  destruct r2 as [data|e]; wp_steps.
  1: apply (wp_use _ _ _ _ (TokenModel_new_log data _));
     intros r3 w3 tr3 _ H3 ->; destruct r3; wp_steps.
  all: logged.
  all: intros c Hc Hm; where_call Hc; first
    [ the_method Hc Hm
    | exists client; split_and!;
      [ returned_here | done
      | apply I2; intros ->; by apply elem_of_nil in Hc ] ].
Qed.


End TokenClient.
(** ** The lifetime that is reported *)

Section Lifetimes.

Context {S : Type} (E : Externals).


End Lifetimes.
(** ** The authorization endpoint: the client and the redirect URI *)

Section AuthorizeClient.

Context {S : Type} (E : Externals).

Import AuthorizeHandler.

Lemma includes_string (x : string) (items : list JsVal) :
  existsb (same_value_zero (JStr x)) items = true → JStr x ∈ items.
Proof.
  intros H. apply existsb_exists in H as (y & Hy & Heq).
  apply list_elem_of_In in Hy.
  destruct y; try discriminate Heq. cbn in Heq.
  apply String.eqb_eq in Heq. by subst.
Qed.

Lemma present_field (f : option string) :
  present f = true → field f = JStr (default EmptyString f).
Proof. by destruct f. Qed.

Lemma first_listed (uris : list JsVal) :
  strict_eq (length_of (JArr uris)) (JNum 0) = false → first (JArr uris) ∈ uris.
Proof. destruct uris; [done|]. intros _. apply list_elem_of_here. Qed.

Lemma authorize_getClient_log (this : t S) (request : Request) (w : World S) :
  let clientId :=
    field_or (body request !! "client_id") (query request !! "client_id") in
  let redirectUri :=
    field_or (body request !! "redirect_uri")
      (query request !! "redirect_uri") in
  wp (getClient E this request)
    (λ r w', ∃ tr, extends w w' tr ∧
       only [Model.getClient] tr ∧ (length tr ≤ 1)%nat ∧
       (∀ c, c ∈ tr →
          present clientId = true ∧
          is_vschar E (field clientId) = true ∧
          (present redirectUri = true →
           is_uri E (field redirectUri) = true) ∧
          call_args c = [field clientId]) ∧
       (∀ client, r = Ok client →
          returned Model.getClient client tr ∧ truthy client = true ∧
          (∀ grants, get_prop client "grants" = JArr grants →
             JStr "authorization_code" ∈ grants) ∧
          (∀ uris, get_prop client "redirectUris" = JArr uris →
             getRedirectUri request client ∈ uris))) w.
Proof.
  cbn zeta. unfold getClient, includes_call.
  wp_steps.
  all: logged.
  all: split_and!; [only_here|cbn; lia| |].
  all: try (intros c Hc; where_call Hc;
            (subst c; split_and!;
             try (intros Ht; rewrite ?Ht in *; cbn [andb] in * );
             passed; first [done | by auto | by cbn in * ])).
  all: intros client Hr; first
    [ discriminate Hr
    | injection Hr as <-; passed;
      split_and!; [apply returned_first|done| |] ].
  all: try (intros grants Hg; rewrite Hg in *;
            first [discriminate | simplify_eq; by apply includes_string]).
  all: intros uris Hu; unfold getRedirectUri, or_else; rewrite Hu in *.
  all: match goal with
       | H : present ?f = _ |- context [truthy (field ?f)] =>
           change (truthy (field f)) with (present f); rewrite H
       end.
  all: first
    [ discriminate
    | simplify_eq; rewrite present_field by done; by apply includes_string
    | by apply first_listed ].
Qed.

(** X12.  The authorization endpoint calls [getClient] of the model at
    most once for a request, with one argument, the [client_id] of the body
    or else of the query, present and VSCHAR, and only when the
    [redirect_uri] of the request, if there is one, is a URI; and the client
    that the lookup hands on is one that the model returned, not falsy. *)
Theorem authorize_client_lookup (this : t S) (request : Request)
    (w : World S) :
  let clientId :=
    field_or (body request !! "client_id") (query request !! "client_id") in
  let redirectUri :=
    field_or (body request !! "redirect_uri")
      (query request !! "redirect_uri") in
  let run := getClient E this request w in
  ∃ tr, extends w run.2 tr ∧
    only [Model.getClient] tr ∧ (length tr ≤ 1)%nat ∧
    (∀ c, c ∈ tr →
       present clientId = true ∧
       is_vschar E (field clientId) = true ∧
       (present redirectUri = true → is_uri E (field redirectUri) = true) ∧
       call_args c = [field clientId]) ∧
    (∀ client, run.1 = Ok client →
       returned Model.getClient client tr ∧ truthy client = true).
Proof.
  cbn zeta. pose proof (authorize_getClient_log this request w) as H.
  cbn zeta in H. unfold wp in H.
  destruct H as (tr & Hext & O & L & Hc & Hr).
  exists tr. split_and!; try done.
  intros client Hrun. destruct (Hr client Hrun) as (? & ? & _). done.
Qed.


End AuthorizeClient.

(** ** The authorization endpoint: the outcome of a request *)

Section AuthorizeOutcome.

Context {S : Type} (E : Externals).

Import AuthorizeHandler.

Lemma response_type_code (f : option string) :
  negb (present f) = false →
  negb (String.eqb (default EmptyString f) "code") = false →
  f = Some "code".
Proof.
  intros Hp He. apply negb_false_iff in He. apply String.eqb_eq in He.
  destruct f; cbn in *; [by subst|done].
Qed.

Lemma authorize_handle_log (this : t S) (request : Request)
    (client user : JsVal) (u : string) (w w1 w2 : World S) :
  query request !! "allowed" ≠ Some "false" →
  getClient E this request (tick w) = (Ok client, w1) →
  getUser this request w1 = (Ok user, w2) →
  getRedirectUri request client = JStr u →
  let scope :=
    field (field_or (body request !! "scope") (query request !! "scope")) in
  let state :=
    field (field_or (body request !! "state") (query request !! "state")) in
  let uri := url_parse E u in
  let with_state (st : JsVal) (q : gmap string JsVal) :=
    if truthy st then <["state" := st]> q else q in
  wp (handle E this request)
    (λ r w', ∃ tr, extends w2 w' tr ∧
       only [Model.generateAuthorizationCode; Model.saveAuthorizationCode] tr ∧
       match r with
       | Ok code =>
           is_nqschar E scope = true ∧ is_vschar E state = true ∧
           (truthy (allowEmptyState this) = false → truthy state = true) ∧
           field_or (body request !! "response_type")
             (query request !! "response_type") = Some "code" ∧
           (∃ authorizationCode,
              last tr = Some
                (mkCall Model.saveAuthorizationCode
                   [object [
                      ("authorizationCode", authorizationCode);
                      ("expiresAt",
                       JDate (AbstractGrantType.add_seconds
                                (clock E (ticks w))
                                (authorizationCodeLifetime this)));
                      ("redirectUri", JStr u);
                      ("scope", scope)];
                    client; user]
                   (Ok code))) ∧
           response w'
             = resp_redirect
                 (url_format E
                    (mkUrl (url_base uri) None
                       (with_state state
                          (<["code" := get_prop code "authorizationCode"]>
                             (url_query uri)))))
                 (response w2)
       | Throw t =>
           ∃ e st,
             t = OAuth e ∧
             (st = JUndefined ∨ st = state ∧ is_vschar E state = true) ∧
             response w'
               = resp_redirect
                   (url_format E
                      (mkUrl (url_base uri) (url_search uri)
                         (with_state st
                            (if truthy (JStr (exc_message e))
                             then <["error_description" :=
                                      JStr (exc_message e)]>
                                    {["error" := JStr (exc_name e)]}
                             else {["error" := JStr (exc_name e)]}))))
                   (response w2)
       end) w.
Proof.
  intros Hallow Hc Hu Huri. cbn zeta.
  unfold handle, getAuthorizationCodeLifetime. unfold tick in Hc.
  wp_steps.
  { apply bool_decide_eq_true in H. done. }
  apply wp_run. intros r1 w1' Hr1. rewrite Hc in Hr1. injection Hr1 as <- <-.
  wp_steps.
  apply wp_run. intros r2 w2' Hr2. rewrite Hu in Hr2. injection Hr2 as <- <-.
  wp_steps. rewrite Huri.
  unfold on_error, getScope, generateAuthorizationCode, getState,
    getResponseType, saveAuthorizationCode, member, CodeResponseType.new,
    buildSuccessRedirectUri, buildErrorRedirectUri,
    CodeResponseType.buildRedirectUri, CodeResponseType.parse,
    updateResponse.
  wp_steps.
  all: logged.
  all: (split; [only_here|]).
  all: try (eexists _, _; (split; [reflexivity|]); first
              [ split; [left; reflexivity|reflexivity]
              | split; [right; split; [reflexivity|by passed]|reflexivity] ]).
  all: split_and!;
    [ by passed | by passed
    | intros Ht; unfold falsy in *; rewrite Ht in *; cbn [negb andb] in *;
      by passed
    | by apply response_type_code
    | eexists; reflexivity
    | reflexivity ].
Qed.


(** X15.  An authorization that fails after the client and the user were
    resolved, for a redirect URI that is a string: whatever fails, a check
    of the request, the model, or the building of the response, the error
    that is thrown is one of the taxonomy, and the response is redirected
    to the redirect URI, its query replaced by the name of the error, as
    [error], its message, when it has one, as [error_description], and the
    state of the request when the state had been read, and found VSCHAR,
    before the failure.  The [search] text of the redirect URI is left as
    it was parsed. *)
Theorem authorization_failure_redirected (this : t S) (request : Request)
    (client user : JsVal) (u : string) (t : Thrown) (w w1 w2 w' : World S) :
  query request !! "allowed" ≠ Some "false" →
  getClient E this request (tick w) = (Ok client, w1) →
  getUser this request w1 = (Ok user, w2) →
  getRedirectUri request client = JStr u →
  handle E this request w = (Throw t, w') →
  let state :=
    field (field_or (body request !! "state") (query request !! "state")) in
  let uri := url_parse E u in
  let with_state (st : JsVal) (q : gmap string JsVal) :=
    if truthy st then <["state" := st]> q else q in
  ∃ e st,
    t = OAuth e ∧
    (st = JUndefined ∨ st = state ∧ is_vschar E state = true) ∧
    response w'
      = resp_redirect
          (url_format E
             (mkUrl (url_base uri) (url_search uri)
                (with_state st
                   (if truthy (JStr (exc_message e))
                    then <["error_description" := JStr (exc_message e)]>
                           {["error" := JStr (exc_name e)]}
                    else {["error" := JStr (exc_name e)]}))))
          (response w2).
Proof.
  intros Hallow Hc Hu Huri Hrun.
  pose proof (authorize_handle_log this request client user u w w1 w2
                Hallow Hc Hu Huri) as H.
  cbn zeta in H. unfold wp in H. rewrite Hrun in H.
  destruct H as (tr & _ & _ & H). exact H.
Qed.

(** X16.  A request whose client is not resolved, or whose user is not,
    is not redirected: when the lookup of the client fails and the
    authentication of the user succeeds, or the other way round, the error
    is thrown as it is, and the world is left as the authentication of the
    user left it; the handler writes nothing in the response and calls the
    model for nothing else. *)
Theorem authorization_failure_not_redirected (this : t S) (request : Request)
    (rc ru : Outcome JsVal) (t : Thrown) (w w1 w2 : World S) :
  query request !! "allowed" ≠ Some "false" →
  getClient E this request (tick w) = (rc, w1) →
  getUser this request w1 = (ru, w2) →
  (rc = Throw t ∧ ∃ user, ru = Ok user)
  ∨ ((∃ client, rc = Ok client) ∧ ru = Throw t) →
  handle E this request w = (Throw t, w2).
Proof.
  intros Hallow Hc Hu Hfail. apply wp_equation.
  unfold handle, getAuthorizationCodeLifetime. unfold tick in Hc.
  wp_steps.
  { apply bool_decide_eq_true in H. done. }
  apply wp_run. intros r1 w1' Hr1. rewrite Hc in Hr1. injection Hr1 as <- <-.
  wp_steps.
  apply wp_run. intros r2 w2' Hr2. rewrite Hu in Hr2. injection Hr2 as <- <-.
  destruct Hfail as [[-> [user ->]] | [[client ->] ->]]; by wp_steps.
Qed.

End AuthorizeOutcome.
(** ** The token value and the response of a token that is issued *)

Section TokenIssued.

Context {S : Type} (E : Externals).

(** X17.  The token value that the constructor builds has an access
    token, a client and a user that are not falsy, and dates of expiry that
    are dates when they are not falsy.  Without
    [allowExtendedTokenAttributes] it has no custom attributes; with it,
    the custom attributes are the own properties of the data whose name is
    not a model attribute, each with its value, and no other. *)
Theorem token_value_validated (data allow : JsVal) (tm : TokenModel.t)
    (w w' : World S) :
  TokenModel.new E data allow w = (Ok tm, w') →
  truthy (TokenModel.accessToken tm) = true ∧
  truthy (TokenModel.client tm) = true ∧
  truthy (TokenModel.user tm) = true ∧
  (truthy (TokenModel.accessTokenExpiresAt tm) = true →
   is_date (TokenModel.accessTokenExpiresAt tm) = true) ∧
  (truthy (TokenModel.refreshTokenExpiresAt tm) = true →
   is_date (TokenModel.refreshTokenExpiresAt tm) = true) ∧
  (truthy allow = false → TokenModel.customAttributes tm = JUndefined) ∧
  (truthy allow = true →
   ∀ k, BearerTokenType.own_props (TokenModel.customAttributes tm) !! k
        = if bool_decide (k ∈ TokenModel.modelAttributes) then None
          else BearerTokenType.own_props data !! k).
Proof.
  intros Hnew.
  destruct (TokenModel_new_returns E data allow w w' tm Hnew)
    as (Ha & Hc & Hu & Hae & Hre).
  rewrite (TokenModel_new_accepts E data allow w Ha Hc Hu Hae Hre) in Hnew.
  injection Hnew as <- _.
  cbn [TokenModel.accessToken TokenModel.client TokenModel.user
       TokenModel.accessTokenExpiresAt TokenModel.refreshTokenExpiresAt
       TokenModel.customAttributes].
  split_and!; try done.
  - intros Ht. rewrite Ht in Hae. by apply negb_false_iff in Hae.
  - intros Ht. rewrite Ht in Hre. by apply negb_false_iff in Hre.
  - by intros ->.
  - intros -> k. destruct data; try done.
    cbn [TokenModel.custom_of BearerTokenType.own_props].
    rewrite map_lookup_filter. destruct (props !! k) as [v|] eqn:Hk; cbn.
    + case_bool_decide; by rewrite ?option_guard_True, ?option_guard_False
        by (cbn; auto).
    + by case_bool_decide.
Qed.

Lemma token_issued_log (this : TokenHandler.t S) (request : Request)
    (w : World S) :
  wp (TokenHandler.handle E this request)
    (λ r w', ∀ data, r = Ok data →
       method request = "POST" ∧
       type_is E request "application/x-www-form-urlencoded" = true ∧
       truthy (get_prop data "accessToken") = true ∧
       truthy (get_prop data "client") = true ∧
       truthy (get_prop data "user") = true ∧
       ∃ r0,
         response w'
           = resp_set "Pragma" "no-cache"
               (resp_set "Cache-Control" "no-store" r0)) w.
Proof.
  unfold TokenHandler.handle, TokenHandler.issue,
    TokenHandler.updateSuccessResponse, TokenHandler.updateErrorResponse.
  wp_steps; try done.
  apply wp_run. intros [client|t1] w1 _; wp_steps; try done.
  apply wp_run. intros [data|t2] w2 _; wp_steps; try done.
  apply wp_run. intros [tm|t3] w3 Hnew; wp_steps; try done.
  destruct (TokenModel_new_returns E _ _ _ _ _ Hnew) as (Ha & Hc & Hu & _).
  intros data' [= <-]. passed.
  split_and!; try done.
  - by apply String.eqb_eq.
  - eexists. reflexivity.
Qed.

(** X18.  A token request that succeeds was a POST of a form; the token
    that is returned, which is what the grant type handed back, has an
    access token, a client and a user that are not falsy; and the last
    things written in the response are the headers [Cache-Control:
    no-store] and [Pragma: no-cache]. *)
Theorem token_issued_response (this : TokenHandler.t S) (request : Request)
    (data : JsVal) (w w' : World S) :
  TokenHandler.handle E this request w = (Ok data, w') →
  method request = "POST" ∧
  type_is E request "application/x-www-form-urlencoded" = true ∧
  truthy (get_prop data "accessToken") = true ∧
  truthy (get_prop data "client") = true ∧
  truthy (get_prop data "user") = true ∧
  ∃ r0,
    response w'
      = resp_set "Pragma" "no-cache" (resp_set "Cache-Control" "no-store" r0).
Proof.
  intros Hrun. pose proof (token_issued_log this request w) as H.
  unfold wp in H. rewrite Hrun in H. by apply H.
Qed.

End TokenIssued.
(** ** The options of the server *)

Section ServerOptions.

Context {S : Type} (E : Externals).

(** X19.  The lifetimes of the handler that [token] constructs.  The
    lifetime that the options of the call name is taken in preference to
    the one that the options of the server name, and this one in preference
    to the default, one hour for an access token and two weeks for a
    refresh token.  A lifetime that is named and falsy, [undefined] as well
    as zero, hides the default: for the access token, [token] then fails
    with [invalid_argument] and the world as it was.  When the handler is
    constructed, the two lifetimes are not falsy, they are those of the
    handler, and [token] is the run of that handler. *)
Theorem server_token_lifetimes (this : Server.t S) (given : Server.Options S)
    (request : Request) (w : World S) :
  let pick (f : Server.Options S → option JsVal) (d : JsVal) :=
    match f given with
    | Some v => v
    | None => match f (Server.options this) with Some v => v | None => d end
    end in
  let access := pick Server.accessTokenLifetime (JNum 3600) in
  let refresh := pick Server.refreshTokenLifetime (JNum 1209600) in
  (truthy access = false →
   Server.token E this request given w
   = (Throw (OAuth (InvalidArgumentException
                      "Missing parameter: `accessTokenLifetime`")), w)) ∧
  (∀ handler,
     TokenHandler.new (Server.token_options this given) = Ok handler →
     truthy access = true ∧ truthy refresh = true ∧
     TokenHandler.accessTokenLifetime handler = access ∧
     TokenHandler.refreshTokenLifetime handler = refresh ∧
     Server.token E this request given w
     = TokenHandler.handle E handler request w).
Proof.
  cbn zeta. unfold Server.token. rewrite run_new. split.
  - intros Hf.
    unfold Server.token_options, Server.spread, Server.later,
      Server.token_defaults, TokenHandler.new, falsy.
    destruct this as [[a m r e x q n]], given as [a' m' r' e' x' q' n'].
    change (60 * 60 * 24 * 14)%Z with 1209600%Z.
    change (60 * 60)%Z with 3600%Z.
    cbn [Server.options Server.accessTokenLifetime
         TokenHandler.opt_accessTokenLifetime] in Hf |- *.
    destruct a' as [v|]; [|destruct a as [v|]]; cbn [default id] in Hf |- *.
    all: by rewrite Hf.
  - intros handler Hnew. rewrite Hnew.
    unfold Server.token_options, Server.spread, Server.later,
      Server.token_defaults, TokenHandler.new, falsy in Hnew.
    destruct this as [[a m r e x q n]], given as [a' m' r' e' x' q' n'].
    change (60 * 60 * 24 * 14)%Z with 1209600%Z in Hnew.
    change (60 * 60)%Z with 3600%Z in Hnew.
    cbn [Server.options Server.accessTokenLifetime Server.refreshTokenLifetime
         Server.model TokenHandler.opt_accessTokenLifetime
         TokenHandler.opt_model TokenHandler.opt_refreshTokenLifetime]
      in Hnew |- *.
    destruct a' as [v|]; [|destruct a as [v|]];
      (destruct r' as [v'|]; [|destruct r as [v'|]]);
      cbn [default id] in Hnew.
    all: match type of Hnew with
         | (if negb (truthy ?x) then _ else _) = _ =>
             destruct (truthy x) eqn:Hv; cbn [negb] in Hnew;
             [|discriminate Hnew]
         end.
    all: match type of Hnew with
         | match ?x with _ => _ end = _ =>
             destruct x as [m0|]; [|discriminate Hnew]
         end.
    all: match type of Hnew with
         | (if negb (truthy ?x) then _ else _) = _ =>
             destruct (truthy x) eqn:Hv'; cbn [negb] in Hnew;
             [|discriminate Hnew]
         end.
    all: match type of Hnew with
         | (if ?x then _ else _) = _ => destruct x; [discriminate Hnew|]
         end.
    all: injection Hnew as <-.
    all: split_and!; reflexivity.
Qed.

End ServerOptions.
(** ** The expiry of the tokens that are saved *)

Section Expiry.

Context {S : Type} (E : Externals).

Import AbstractGrantType.










End Expiry.
(** ** More scenarios *)

Section MoreScenarios.

Import Fixture Cases.

(** A password grant on a model whose [getUser] loses its connection: the
    error of the grant is the error of that call. *)
Lemma built_in_grant_faults_down :
  ∃ c,
    c ∈ calls (TokenHandler.run_grant env TokenHandler.Password
                 (grant_options down) login c1 world).2 ∧
    call_result c = Throw (Foreign "connection lost").
Proof.
  destruct (built_in_grant_faults env "password" TokenHandler.Password
              (grant_options down) login c1 world eq_refl)
    as (tr & Hext & Hfault).
  destruct (Hfault "connection lost") as (c & Hc & Hres).
  - vm_compute. reflexivity.
  - exists c. split; [|exact Hres].
    unfold extends in Hext. rewrite Hext. exact Hc.
Defined.

(** The exchange of the code [abc]: the calls that follow the lookup of the
    client are made for a client that is allowed the grant type. *)
Lemma grant_for_authorized_client_exchange :
  ∃ client,
    returned Model.getClient client
      (calls (TokenHandler.handle env token_handler exchange world).2) ∧
    includes (get_prop client "grants") (JStr "authorization_code") = true.
Proof.
  destruct (grant_for_authorized_client env token_handler exchange world
              eq_refl) as (tr & Hext & Hcalls).
  unfold extends in Hext. cbn [calls world app] in Hext.
  set (c := mkCall Model.getAuthorizationCode [JStr "abc"] (Ok abc)).
  destruct (Hcalls c) as (client & Hreturned & _ & Hgrants).
  - rewrite <- Hext. vm_compute.
    apply list_elem_of_further, list_elem_of_here.
  - discriminate.
  - exists client. rewrite Hext. split; [exact Hreturned|exact Hgrants].
Defined.




(** The same request without a state: the error is sent to the redirect
    URI. *)
Lemma authorization_failure_redirected_state :
  resp_headers
    (response
       (AuthorizeHandler.handle env authorize_handler approve_without_state
          world).2)
    !! "location"
  = Some ("https://x.test/cb?error_description=Missing parameter: `state`"
          ++ "&error=invalid_request").
Proof.
  set (run := AuthorizeHandler.handle env authorize_handler
                approve_without_state world).
  destruct (authorization_failure_redirected env authorize_handler
              approve_without_state c1 u1 "https://x.test/cb"
              (OAuth (InvalidRequestException "Missing parameter: `state`"))
              world
              (AuthorizeHandler.getClient env authorize_handler
                 approve_without_state (tick world)).2
              (AuthorizeHandler.getClient env authorize_handler
                 approve_without_state (tick world)).2
              run.2)
    as (e & st & He & Hst & Hresponse).
  - discriminate.
  - vm_compute. reflexivity.
  - vm_compute. reflexivity.
  - vm_compute. reflexivity.
  - vm_compute. reflexivity.
  - injection He as <-. rewrite Hresponse.
    destruct Hst as [-> | [-> _]]; vm_compute; reflexivity.
Defined.

(** The request of a code for a client that the model does not know: the
    error is thrown and the response is not a redirect. *)
Lemma authorization_failure_not_redirected_unknown :
  AuthorizeHandler.handle env authorize_handler approve_unknown world
  = (Throw (OAuth (InvalidClientException
                     "Invalid client: client credentials are invalid")),
     (AuthorizeHandler.getClient env authorize_handler approve_unknown
        (tick world)).2)
  ∧ status
      (response
         (AuthorizeHandler.handle env authorize_handler approve_unknown
            world).2) = 200%Z.
Proof.
  pose proof (authorization_failure_not_redirected env authorize_handler
                approve_unknown
                (Throw (OAuth (InvalidClientException
                                 "Invalid client: client credentials are invalid")))
                (Ok u1)
                (OAuth (InvalidClientException
                          "Invalid client: client credentials are invalid"))
                world
                (AuthorizeHandler.getClient env authorize_handler
                   approve_unknown (tick world)).2
                (AuthorizeHandler.getClient env authorize_handler
                   approve_unknown (tick world)).2) as H.
  assert (AuthorizeHandler.handle env authorize_handler approve_unknown world
          = (Throw (OAuth (InvalidClientException
                             "Invalid client: client credentials are invalid")),
             (AuthorizeHandler.getClient env authorize_handler approve_unknown
                (tick world)).2)) as Hrun.
  { apply H.
    - discriminate.
    - vm_compute. reflexivity.
    - vm_compute. reflexivity.
    - left. split; [reflexivity|]. by exists u1. }
  split; [exact Hrun|]. rewrite Hrun. vm_compute. reflexivity.
Defined.

(** The token of the fixture, with extended attributes allowed: it has no
    custom attribute of the name of a model attribute. *)
Lemma token_value_validated_saved :
  ∃ tm w',
    TokenModel.new env saved (JBool true) world = (Ok tm, w') ∧
    BearerTokenType.own_props (TokenModel.customAttributes tm) !! "client"
    = None.
Proof.
  pose proof (TokenModel_new_accepts env saved (JBool true) world
                eq_refl eq_refl eq_refl eq_refl eq_refl) as Hnew.
  destruct (token_value_validated env saved (JBool true) _ world _ Hnew)
    as (_ & _ & _ & _ & _ & _ & Hcustom).
  eexists _, _. split; [exact Hnew|].
  rewrite (Hcustom eq_refl "client"). reflexivity.
Defined.

(** The exchange of the code [abc] ends with the two headers that keep
    the response out of caches. *)
Lemma token_issued_response_exchange :
  ∃ r0,
    response (TokenHandler.handle env token_handler exchange world).2
    = resp_set "Pragma" "no-cache" (resp_set "Cache-Control" "no-store" r0).
Proof.
  set (run := TokenHandler.handle env token_handler exchange world).
  assert (∃ data, run = (Ok data, run.2)) as (data & Hrun).
  { eexists. vm_compute. reflexivity. }
  destruct (token_issued_response env token_handler exchange data world
              run.2 Hrun) as (_ & _ & _ & _ & _ & r0 & Hr0).
  exists r0. exact Hr0.
Defined.

(** A call of [token] that names the lifetime of the access token and
    leaves it undefined fails, whatever the default. *)
Lemma server_token_lifetimes_undefined :
  Server.token env server exchange undefined_lifetime world
  = (Throw (OAuth (InvalidArgumentException
                     "Missing parameter: `accessTokenLifetime`")), world).
Proof.
  exact (proj1 (server_token_lifetimes env server undefined_lifetime exchange
                  world) eq_refl).
Defined.

End MoreScenarios.
